(** * Rex Pose Creator: the pose-generation workflow of [App.tsx]

  A shallow embedding of the React component [App] (state, event
  handlers, the description effect and the generation retry loop) and of
  [services/geminiService.ts], with the properties the specification
  states about them. *)

From Stdlib Require Import Ascii String Bool Arith Lia.
From stdpp Require Import base option list strings gmap pretty.

(** ** JavaScript strings

  A string is a sequence of code units, of which the embedding keeps the
  8-bit ones.  The two messages with a dash hold it as its bytes; no
  property reads them character by character. *)

Module Js.

(** White space and line terminators that [String.prototype.trim]
    removes, among the 8-bit code units: TAB, LF, VT, FF, CR, SPACE and
    NO-BREAK SPACE. *)
Definition isWhiteSpace (a : ascii) : bool :=
  let n := nat_of_ascii a in
  ((9 <=? n) && (n <=? 13)) || (n =? 32) || (n =? 160).

Fixpoint trimStart (s : string) : string :=
  match s with
  | EmptyString => EmptyString
  | String a s' => if isWhiteSpace a then trimStart s' else s
  end.

Fixpoint trimEnd (s : string) : string :=
  match s with
  | EmptyString => EmptyString
  | String a s' =>
      match trimEnd s' with
      | EmptyString => if isWhiteSpace a then EmptyString else String a EmptyString
      | t => String a t
      end
  end.

(** [s.trim()] *)
Definition trim (s : string) : string := trimEnd (trimStart s).

(** Truthiness of a string value: every string but the empty one. *)
Definition truthy (s : string) : bool :=
  match s with
  | EmptyString => false
  | String _ _ => true
  end.

(** [hay.includes(needle)] *)
Fixpoint includes (hay needle : string) : bool :=
  if String.prefix needle hay then true
  else match hay with
       | EmptyString => false
       | String _ hay' => includes hay' needle
       end.

(** Blank text: empty, or white space only.  Stated on the characters,
    independently of [trim]. *)
Fixpoint blank (s : string) : bool :=
  match s with
  | EmptyString => true
  | String a s' => isWhiteSpace a && blank s'
  end.

(** What a [throw] or a rejected promise carries: an [Error] object with
    its message, or any other value. *)
Inductive thrown : Type :=
| ErrorObject (message : string)
| OtherValue.

(** The outcome of an awaited promise. *)
Inductive settled (A : Type) : Type :=
| Fulfilled (v : A)
| Rejected (e : thrown).
Arguments Fulfilled {A} v.
Arguments Rejected {A} e.

(** [err instanceof Error ? err.message : "An unknown error occurred."] *)
Definition message_of (err : thrown) : string :=
  match err with
  | ErrorObject m => m
  | OtherValue => "An unknown error occurred."
  end.

(** Sequencing of awaits inside an [async] function: a rejection skips
    the rest. *)
#[export] Instance settled_ret : MRet settled := fun A v => Fulfilled v.
#[export] Instance settled_bind : MBind settled := fun A B k p =>
  match p with
  | Fulfilled v => k v
  | Rejected e => Rejected e
  end.

End Js.

Import Js.

(** ** services/geminiService.ts *)

Module GeminiService.

Record ImagePayload : Type := mkImagePayload {
  data : string;      (* base64 *)
  mimeType : string
}.

Inductive Mode : Type := text | image.

Record GenerateOptions : Type := mkGenerateOptions {
  mode : Mode;
  poseImage : option ImagePayload;
  poseDescription : string
}.

(** A [Part] of a request or of a response. *)
Inductive Part : Type :=
| InlineData (mime : string) (bytes : string)
| TextPart (txt : string).

(** What [ai.models.generateContent] answers: the parts of the first
    candidate, when there is one. *)
Record Response : Type := mkResponse {
  responseText : option string;          (* response.text *)
  candidateParts : option (list Part)    (* response.candidates[0].content.parts *)
}.

(** The environment of the service: the configured key and the remote
    model, called with a model name and the request parts. *)
Record Backend : Type := mkBackend {
  API_KEY : option string;
  generateContent : string -> list Part -> settled Response
}.

Definition getAiClient (be : Backend) : settled unit :=
  match API_KEY be with
  | Some k => if truthy k then Fulfilled tt
              else Rejected (ErrorObject "API_KEY environment variable not set.")
  | None => Rejected (ErrorObject "API_KEY environment variable not set.")
  end.

Definition describeImagePrompt : string :=
  "Analyze the provided image and describe the person's pose in a concise, neutral sentence. Focus only on the body's position, not the character or style. Example: 'A person standing with arms crossed.'".

Definition describeTextPrompt (t : string) : string :=
  "Based on the following user input, describe the character's pose in a concise, neutral sentence. Example: 'A character is doing push-ups, seen from the side.'"
  +:+ String (ascii_of_nat 10) (String (ascii_of_nat 10) "User Input: ")
  +:+ String (ascii_of_nat 34) t +:+ String (ascii_of_nat 34) EmptyString.

Definition missingInputError : thrown :=
  ErrorObject "Either an image or text must be provided for description.".

(** The request parts [generatePoseDescription] builds: the branch on
    [image], then on [text]. *)
Definition describeParts (img : option ImagePayload) (txt : option string)
  : settled (list Part) :=
  match img with
  | Some i =>
      Fulfilled [InlineData (mimeType i) (data i); TextPart describeImagePrompt]
  | None =>
      match txt with
      | Some t =>
          if truthy t then Fulfilled [TextPart (describeTextPrompt t)]
          else Rejected missingInputError
      | None => Rejected missingInputError
      end
  end.

Definition undefinedTrimError : thrown :=
  ErrorObject "Cannot read properties of undefined (reading 'trim')".

Definition generatePoseDescription (be : Backend)
    (img : option ImagePayload) (txt : option string) : settled string :=
  _ ← getAiClient be;
  parts ← describeParts img txt;
  response ← generateContent be "gemini-2.5-flash" parts;
  match responseText response with
  | Some t => Fulfilled (trim t)
  | None => Rejected undefinedTrimError
  end.

Section GeneratePose.

(** The two instruction templates of [generatePose], as functions of the
    pose description they embed.  No property below reads their wording. *)
Variable instructionPrompt : Mode -> string -> string.

Definition poseImageRequiredError : thrown :=
  ErrorObject "A pose image is required when using image mode.".
Definition poseDetectionFailedError : thrown :=
  ErrorObject "POSE_DETECTION_FAILED: The model could not detect a clear pose in the reference image.".
Definition multiplePeopleDetectedError : thrown :=
  ErrorObject "MULTIPLE_PEOPLE_DETECTED: The model detected multiple people in the reference image.".
Definition noImageError : thrown :=
  ErrorObject "No image was generated by the API. The model may have refused the request.".
(** The [TypeError] of reading the parts of an answer that has none.  Its
    text depends on which level of the answer is missing; the one of a
    missing candidates array stands for all of them. *)
Definition undefinedPartsError : thrown :=
  ErrorObject "Cannot read properties of undefined (reading '0')".

(** The request parts of [generatePose]: the base image first, then the
    pose image in image mode, then the instruction. *)
Definition poseParts (baseImage : ImagePayload) (options : GenerateOptions)
  : settled (list Part) :=
  let base := InlineData (mimeType baseImage) (data baseImage) in
  match mode options with
  | image =>
      match poseImage options with
      | None => Rejected poseImageRequiredError
      | Some p =>
          Fulfilled [base; InlineData (mimeType p) (data p);
                     TextPart (instructionPrompt image (poseDescription options))]
      end
  | text =>
      Fulfilled [base; TextPart (instructionPrompt text (poseDescription options))]
  end.

(** "Check for text-based error responses first": the text of the first
    part, when it has one that is not empty. *)
Definition textErrorSignal (parts : option (list Part)) : settled unit :=
  match parts with
  | Some (TextPart t :: _) =>
      if truthy t then
        let responseText := trim t in
        if includes responseText "POSE_DETECTION_FAILED"
        then Rejected poseDetectionFailedError
        else if includes responseText "MULTIPLE_PEOPLE_DETECTED"
        then Rejected multiplePeopleDetectedError
        else Fulfilled tt
      else Fulfilled tt
  | _ => Fulfilled tt
  end.

(** [for (const part of ...parts) if (part.inlineData) return part.inlineData.data] *)
Fixpoint firstInlineData (parts : list Part) : option string :=
  match parts with
  | [] => None
  | InlineData _ bytes :: _ => Some bytes
  | TextPart _ :: rest => firstInlineData rest
  end.

Definition generatePose (be : Backend)
    (baseImage : ImagePayload) (options : GenerateOptions) : settled string :=
  _ ← getAiClient be;
  parts ← poseParts baseImage options;
  response ← generateContent be "gemini-2.5-flash-image" parts;
  _ ← textErrorSignal (candidateParts response);
  match candidateParts response with
  | None => Rejected undefinedPartsError
  | Some ps =>
      match firstInlineData ps with
      | Some bytes => Fulfilled bytes
      | None => Rejected noImageError
      end
  end.

End GeneratePose.

End GeminiService.

(** ** App.tsx *)

Module App.

Export GeminiService (Mode(..), ImagePayload, mkImagePayload).

(** A browser [File]: its content, and the media type the code reads. *)
Record File : Type := mkFile {
  content : string;
  type : string
}.

Record ImageFile : Type := mkImageFile {
  file : File;
  preview : string
}.

(** [StoredBaseImage] has the fields of [ImagePayload] and is passed where
    one is expected. *)
Abbreviation StoredBaseImage := GeminiService.ImagePayload.

#[export] Instance Mode_eq_dec : EqDecision Mode.
Proof. solve_decision. Defined.
#[export] Instance File_eq_dec : EqDecision File.
Proof. solve_decision. Defined.
#[export] Instance ImageFile_eq_dec : EqDecision ImageFile.
Proof. solve_decision. Defined.

(** The state of the component: one field per [useState] (and the
    [useLocalStorage] record), plus the two debounced copies. *)
Record AppState : Type := mkAppState {
  baseImage : option StoredBaseImage;
  poseImage : option ImageFile;
  prompt : string;
  poseSourceMode : option Mode;
  poseDescription : string;
  isPreviewLoading : bool;
  showDescriptionEditor : bool;
  generatedImage : option string;
  isLoading : bool;
  error : option string;
  debouncedPrompt : string;
  debouncedPoseImage : option ImageFile
}.

Definition initialState (stored : option StoredBaseImage) : AppState :=
  {| baseImage := stored; poseImage := None; prompt := ""; poseSourceMode := None;
     poseDescription := ""; isPreviewLoading := false; showDescriptionEditor := false;
     generatedImage := None; isLoading := false; error := None;
     debouncedPrompt := ""; debouncedPoseImage := None |}.

(** *** State setters *)

Definition setBaseImage (v : option StoredBaseImage) (s : AppState) : AppState :=
  mkAppState v (poseImage s) (prompt s) (poseSourceMode s) (poseDescription s)
    (isPreviewLoading s) (showDescriptionEditor s) (generatedImage s) (isLoading s)
    (error s) (debouncedPrompt s) (debouncedPoseImage s).
Definition setPoseImage (v : option ImageFile) (s : AppState) : AppState :=
  mkAppState (baseImage s) v (prompt s) (poseSourceMode s) (poseDescription s)
    (isPreviewLoading s) (showDescriptionEditor s) (generatedImage s) (isLoading s)
    (error s) (debouncedPrompt s) (debouncedPoseImage s).
Definition setPrompt (v : string) (s : AppState) : AppState :=
  mkAppState (baseImage s) (poseImage s) v (poseSourceMode s) (poseDescription s)
    (isPreviewLoading s) (showDescriptionEditor s) (generatedImage s) (isLoading s)
    (error s) (debouncedPrompt s) (debouncedPoseImage s).
Definition setPoseSourceMode (v : option Mode) (s : AppState) : AppState :=
  mkAppState (baseImage s) (poseImage s) (prompt s) v (poseDescription s)
    (isPreviewLoading s) (showDescriptionEditor s) (generatedImage s) (isLoading s)
    (error s) (debouncedPrompt s) (debouncedPoseImage s).
Definition setPoseDescription (v : string) (s : AppState) : AppState :=
  mkAppState (baseImage s) (poseImage s) (prompt s) (poseSourceMode s) v
    (isPreviewLoading s) (showDescriptionEditor s) (generatedImage s) (isLoading s)
    (error s) (debouncedPrompt s) (debouncedPoseImage s).
Definition setIsPreviewLoading (v : bool) (s : AppState) : AppState :=
  mkAppState (baseImage s) (poseImage s) (prompt s) (poseSourceMode s) (poseDescription s)
    v (showDescriptionEditor s) (generatedImage s) (isLoading s)
    (error s) (debouncedPrompt s) (debouncedPoseImage s).
Definition setShowDescriptionEditor (v : bool) (s : AppState) : AppState :=
  mkAppState (baseImage s) (poseImage s) (prompt s) (poseSourceMode s) (poseDescription s)
    (isPreviewLoading s) v (generatedImage s) (isLoading s)
    (error s) (debouncedPrompt s) (debouncedPoseImage s).
Definition setGeneratedImage (v : option string) (s : AppState) : AppState :=
  mkAppState (baseImage s) (poseImage s) (prompt s) (poseSourceMode s) (poseDescription s)
    (isPreviewLoading s) (showDescriptionEditor s) v (isLoading s)
    (error s) (debouncedPrompt s) (debouncedPoseImage s).
Definition setIsLoading (v : bool) (s : AppState) : AppState :=
  mkAppState (baseImage s) (poseImage s) (prompt s) (poseSourceMode s) (poseDescription s)
    (isPreviewLoading s) (showDescriptionEditor s) (generatedImage s) v
    (error s) (debouncedPrompt s) (debouncedPoseImage s).
Definition setError (v : option string) (s : AppState) : AppState :=
  mkAppState (baseImage s) (poseImage s) (prompt s) (poseSourceMode s) (poseDescription s)
    (isPreviewLoading s) (showDescriptionEditor s) (generatedImage s) (isLoading s)
    v (debouncedPrompt s) (debouncedPoseImage s).

(** Modelled from the spec: hooks/useDebounce is not among the sources.
    "Changes to the text pose-source or the selected pose-source image are
    coalesced; normalization is triggered only after a quiescence window":
    when the window of a value closes, its debounced copy takes the value
    current at that moment. *)
Definition debouncePrompt (s : AppState) : AppState :=
  mkAppState (baseImage s) (poseImage s) (prompt s) (poseSourceMode s) (poseDescription s)
    (isPreviewLoading s) (showDescriptionEditor s) (generatedImage s) (isLoading s)
    (error s) (prompt s) (debouncedPoseImage s).
Definition debouncePoseImage (s : AppState) : AppState :=
  mkAppState (baseImage s) (poseImage s) (prompt s) (poseSourceMode s) (poseDescription s)
    (isPreviewLoading s) (showDescriptionEditor s) (generatedImage s) (isLoading s)
    (error s) (debouncedPrompt s) (poseImage s).

(** Statements of a handler run in source order: [s |> f |> g] is
    [f(); g();]. *)
Notation "s |> f" := (f s) (at level 45, left associativity, only parsing).

(** *** Synchronous handlers *)

(** [handleDeleteBaseImage]; [confirmed] is the answer of [window.confirm]. *)
Definition handleDeleteBaseImage (confirmed : bool) (s : AppState) : AppState :=
  if confirmed then
    s |> setBaseImage None
      |> setPoseImage None
      |> setPrompt ""
      |> setGeneratedImage None
      |> setError None
      |> setPoseSourceMode None
      |> setShowDescriptionEditor false
  else s.

(** [handlePoseImageUpload]; [url] is what [URL.createObjectURL(file)]
    returns. *)
Definition handlePoseImageUpload (f : File) (url : string) (s : AppState) : AppState :=
  s |> setPoseImage (Some {| file := f; preview := url |})
    |> setPrompt "".

Definition handleTryNewPose (s : AppState) : AppState :=
  s |> setGeneratedImage None
    |> setPoseImage None
    |> setPrompt ""
    |> setError None
    |> setPoseSourceMode None
    |> setShowDescriptionEditor false
    |> setPoseDescription "".

Definition handlePoseSourceChange (m : Mode) (s : AppState) : AppState :=
  s |> setPoseSourceMode (Some m)
    |> setError None
    |> setPoseImage None
    |> setPrompt ""
    |> setShowDescriptionEditor false
    |> setPoseDescription "".

(** [handleBaseImageUpload]: the replacement is confirmed when an identity
    exists; [encoded] is the outcome of [fileToBase64(file)]. *)
Definition handleBaseImageUpload (confirmed : bool) (f : File)
    (encoded : settled string) (s : AppState) : AppState :=
  if bool_decide (baseImage s <> None) && negb confirmed then s
  else match encoded with
       | Fulfilled base64String =>
           s |> setBaseImage (Some (mkImagePayload base64String (type f)))
       | Rejected _ =>
           s |> setError (Some "Failed to process base character image.")
       end.

(** [isGenerateDisabled] *)
Definition isGenerateDisabled (s : AppState) : bool :=
  isLoading s || negb (truthy (poseDescription s)).

(** *** The description effect and its promises *)

(** What an invocation of [getPoseDescription] is waiting for. *)
Inductive Task : Type :=
| FileToBase64Pending (img : ImageFile)
| DescribePending (branch : Mode) (img : option ImagePayload) (txt : option string).

(** The component together with the promises in flight, and the calls of
    [generatePoseDescription] made so far, latest first. *)
Record World : Type := mkWorld {
  ui : AppState;
  inflight : gmap nat Task;
  nextTask : nat;
  describeCalls : list (option ImagePayload * option string)
}.

Definition initialWorld (stored : option StoredBaseImage) : World :=
  {| ui := initialState stored; inflight := ∅; nextTask := 0; describeCalls := [] |}.

Definition withUi (f : AppState -> AppState) (w : World) : World :=
  mkWorld (f (ui w)) (inflight w) (nextTask w) (describeCalls w).

Definition spawn (t : Task) (w : World) : World :=
  mkWorld (ui w) (<[nextTask w := t]> (inflight w)) (S (nextTask w)) (describeCalls w).

Definition callDescribe (img : option ImagePayload) (txt : option string) (w : World) : World :=
  mkWorld (ui w) (inflight w) (nextTask w) ((img, txt) :: describeCalls w).

Definition await (id : nat) (t : Task) (w : World) : World :=
  mkWorld (ui w) (<[id := t]> (inflight w)) (nextTask w) (describeCalls w).

Definition finish (id : nat) (w : World) : World :=
  mkWorld (ui w) (delete id (inflight w)) (nextTask w) (describeCalls w).

(** The body of the effect, up to its first [await]. *)
Definition getPoseDescription (w : World) : World :=
  let s := ui w in
  match poseSourceMode s with
  | None => w
  | Some m =>
      if bool_decide (m = text) && truthy (trim (debouncedPrompt s)) then
        w |> withUi (setIsPreviewLoading true)
          |> withUi (setError None)
          |> callDescribe None (Some (debouncedPrompt s))
          |> spawn (DescribePending text None (Some (debouncedPrompt s)))
      else
        match m, debouncedPoseImage s with
        | image, Some img =>
            w |> withUi (setIsPreviewLoading true)
              |> withUi (setError None)
              |> spawn (FileToBase64Pending img)
        | _, _ =>
            w |> withUi (setShowDescriptionEditor false)
              |> withUi (setPoseDescription "")
        end
  end.

Definition describeErrorPrefix (branch : Mode) : string :=
  match branch with
  | text => "Could not generate pose description: "
  | image => "Could not generate pose description from image: "
  end.

(** The [catch] and [finally] blocks of either branch. *)
Definition describeFailed (branch : Mode) (err : thrown) (s : AppState) : AppState :=
  s |> setError (Some (describeErrorPrefix branch +:+ message_of err))
    |> setShowDescriptionEditor false
    |> setIsPreviewLoading false.

(** The rest of the [try] block after the awaited description, and the
    [finally] block. *)
Definition describeSucceeded (description : string) (s : AppState) : AppState :=
  s |> setPoseDescription description
    |> setShowDescriptionEditor true
    |> setIsPreviewLoading false.

(** Promise [id] settles with [r]: the invocation waiting for it resumes.
    After [fileToBase64] the image branch calls [generatePoseDescription]
    and waits again. *)
Definition settle (id : nat) (r : settled string) (w : World) : World :=
  match inflight w !! id with
  | None => w
  | Some (FileToBase64Pending img) =>
      match r with
      | Fulfilled base64 =>
          let imagePayload := mkImagePayload base64 (type (file img)) in
          w |> callDescribe (Some imagePayload) None
            |> await id (DescribePending image (Some imagePayload) None)
      | Rejected err =>
          w |> withUi (describeFailed image err) |> finish id
      end
  | Some (DescribePending branch _ _) =>
      match r with
      | Fulfilled description =>
          w |> withUi (describeSucceeded description) |> finish id
      | Rejected err =>
          w |> withUi (describeFailed branch err) |> finish id
      end
  end.

(** The dependency array of the effect. *)
Definition effectDeps (s : AppState) : string * option ImageFile * option Mode :=
  (debouncedPrompt s, debouncedPoseImage s, poseSourceMode s).

(** After a render the effect runs again when a dependency changed. *)
Definition rerender (before : AppState) (w : World) : World :=
  if decide (effectDeps before = effectDeps (ui w)) then w else getPoseDescription w.

(** *** The generation retry loop *)

(** What a run of [handleGenerate] consumes: the outcome of the [n]-th
    conversion of the pose image, and of the [n]-th call of [generatePose]
    (both counted from 0) on the arguments it is given. *)
Record RenderEnv : Type := mkRenderEnv {
  fileToBase64 : nat -> File -> settled string;
  render : nat -> ImagePayload -> GeminiService.GenerateOptions -> settled string
}.

(** A run in progress: the component state and the calls of [generatePose]
    made so far, latest first. *)
Record GenRun : Type := mkGenRun {
  state : AppState;
  renderCalls : list (ImagePayload * GeminiService.GenerateOptions)
}.

Definition onState (f : AppState -> AppState) (r : GenRun) : GenRun :=
  mkGenRun (f (state r)) (renderCalls r).

Definition logRender (b : ImagePayload) (o : GeminiService.GenerateOptions) (r : GenRun) : GenRun :=
  mkGenRun (state r) ((b, o) :: renderCalls r).

Definition authSignal : string := "Requested entity was not found.".
Definition poseSignal : string := "POSE_DETECTION_FAILED".
Definition peopleSignal : string := "MULTIPLE_PEOPLE_DETECTED".

Definition authMessage : string :=
  "Your API key seems to be invalid. Please double-check the key in services/geminiService.ts.".
Definition poseMessage : string :=
  "Pose not detected clearly — try a clearer or single-person image.".
Definition peopleMessage : string :=
  "Multiple people detected — please crop to one person for best accuracy.".

(** `Failed to generate image (attempt ${i+1}). ${errorMessage}` *)
Definition transientMessage (i : nat) (errorMessage : string) : string :=
  "Failed to generate image (attempt " +:+ pretty (i + 1) +:+ "). " +:+ errorMessage.

(** The [catch] block of attempt [i]: the error shown, and whether the
    loop is left ([break]). *)
Definition classifyError (i : nat) (errorMessage : string) : string * bool :=
  if includes errorMessage authSignal then (authMessage, true)
  else if includes errorMessage poseSignal then (poseMessage, true)
  else if includes errorMessage peopleSignal then (peopleMessage, true)
  else (transientMessage i errorMessage, false).

(** An error message that carries one of the three signals the [catch]
    block leaves the loop on. *)
Definition isFatal (errorMessage : string) : bool :=
  includes errorMessage authSignal
  || includes errorMessage poseSignal
  || includes errorMessage peopleSignal.

(** The options of a call: a mode that is still [null] is passed as it
    is, and [generatePose] treats whatever is not ['image'] as text. *)
Definition optionsOf (cap : AppState) (poseImagePayload : option ImagePayload)
  : GeminiService.GenerateOptions :=
  GeminiService.mkGenerateOptions
    (match poseSourceMode cap with Some m => m | None => text end)
    poseImagePayload
    (poseDescription cap).

(** The pose image payload of attempt [i]: converted again at each
    attempt, in image mode with a pose image; [null] otherwise. *)
Definition poseImagePayloadOf (env : RenderEnv) (cap : AppState) (i : nat)
  : settled (option ImagePayload) :=
  match poseSourceMode cap, poseImage cap with
  | Some image, Some img =>
      base64 ← fileToBase64 env i (file img);
      mret (Some (mkImagePayload base64 (type (file img))))
  | _, _ => mret None
  end.

(** [for (let i = 0; i < 3 && !success; i++) { try ... catch ... }], from
    index [i] on.  [cap] holds the values the callback closed over and
    [b] the base image among them. *)
Fixpoint attempts (fuel : nat) (env : RenderEnv) (cap : AppState) (b : ImagePayload)
    (i : nat) (success : bool) (run : GenRun) : option GenRun :=
  if (i <? 3) && negb success then
    match fuel with
    | 0 => None
    | S fuel' =>
        let catch (err : thrown) (run : GenRun) : option GenRun :=
          let '(shown, break) := classifyError i (message_of err) in
          let run := run |> onState (setError (Some shown)) in
          if break then Some run
          else attempts fuel' env cap b (S i) false run in
        match poseImagePayloadOf env cap i with
        | Rejected err => catch err run
        | Fulfilled payload =>
            let options := optionsOf cap payload in
            let n := length (renderCalls run) in
            let run := run |> logRender b options in
            match render env n b options with
            | Fulfilled result =>
                run |> onState (setGeneratedImage (Some ("data:image/png;base64," +:+ result)))
                    |> attempts fuel' env cap b (S i) true
            | Rejected err => catch err run
            end
        end
    end
  else Some run.

(** [handleGenerate], run to its end from the state it was created in.
    [None] would mean the loop needs more than its three rounds. *)
Definition handleGenerate (env : RenderEnv) (s : AppState) : option GenRun :=
  match baseImage s with
  | None => Some (mkGenRun s [])
  | Some b =>
      if negb (truthy (poseDescription s)) then Some (mkGenRun s [])
      else
        let run := mkGenRun s []
                   |> onState (setIsLoading true)
                   |> onState (setError None)
                   |> onState (setGeneratedImage None) in
        run ← attempts 3 env s b 0 false run;
        Some (run |> onState (setIsLoading false))
  end.

(** The render capability as the service implements it: call [n] goes to
    the backend answering at that moment. *)
Definition serviceEnv (prompts : Mode -> string -> string)
    (reader : nat -> File -> settled string)
    (backend : nat -> GeminiService.Backend) : RenderEnv :=
  {| fileToBase64 := reader;
     render := fun n b o => GeminiService.generatePose prompts (backend n) b o |}.

(** *** Events of a session *)

Inductive Event : Type :=
| BaseImageUpload (confirmed : bool) (f : File) (encoded : settled string)
| DeleteBaseImage (confirmed : bool)
| PoseSourceChange (m : Mode)
| PromptChange (value : string)
| PoseImageUpload (f : File) (url : string)
| DescriptionChange (value : string)
| TryNewPose
| DebouncedPromptUpdate
| DebouncedPoseImageUpdate
| Settle (id : nat) (r : settled string).

(** One event: the handler (or the resumed invocation) runs, then the
    component renders again. *)
Definition step (w : World) (e : Event) : World :=
  let before := ui w in
  let w' :=
    match e with
    | BaseImageUpload c f r => w |> withUi (handleBaseImageUpload c f r)
    | DeleteBaseImage c => w |> withUi (handleDeleteBaseImage c)
    | PoseSourceChange m => w |> withUi (handlePoseSourceChange m)
    | PromptChange v => w |> withUi (setPrompt v)
    | PoseImageUpload f url => w |> withUi (handlePoseImageUpload f url)
    | DescriptionChange v => w |> withUi (setPoseDescription v)
    | TryNewPose => w |> withUi handleTryNewPose
    | DebouncedPromptUpdate => w |> withUi debouncePrompt
    | DebouncedPoseImageUpdate => w |> withUi debouncePoseImage
    | Settle id r => w |> settle id r
    end in
  rerender before w'.

Definition run (w : World) (es : list Event) : World := foldl step w es.

(** *** Phases of the workflow, read off what the component renders

    The identity section alone without an identity; the spinner of a
    generation; the result section; then, once a mode is chosen, the
    "Processing pose..." line or the description editor; otherwise the
    choice of a pose source. *)

Inductive Phase : Type :=
| NoIdentity
| AwaitingPoseSourceChoice
| NormalizingDescription
| DescriptionReady
| Generating
| Result.

Definition phase (s : AppState) : Phase :=
  match baseImage s with
  | None => NoIdentity
  | Some _ =>
      if isLoading s then Generating
      else if bool_decide (generatedImage s <> None) then Result
      else match poseSourceMode s with
           | None => AwaitingPoseSourceChoice
           | Some _ =>
               if isPreviewLoading s then NormalizingDescription
               else if showDescriptionEditor s then DescriptionReady
               else AwaitingPoseSourceChoice
           end
  end.

(** *** Download and preview URLs *)

(** What [handleDownload] hands to the browser: the link it clicks. *)
Record Download : Type := mkDownload {
  href : string;
  download : string
}.

(** [handleDownload]: nothing without a generated image; otherwise a link
    to it, named after the fixed file name, is clicked. *)
Definition handleDownload (s : AppState) : option Download :=
  match generatedImage s with
  | Some url => if truthy url then Some (mkDownload url "rex-new-pose.png") else None
  | None => None
  end.

(** The component in its page: [objectURLs] are the URLs made by
    [URL.createObjectURL] and not revoked since. *)
Record Page : Type := mkPage {
  world : World;
  objectURLs : gset string
}.

(** [poseImage?.preview], when it is a non-empty string. *)
Definition previewUrl (s : AppState) : option string :=
  match poseImage s with
  | Some img => if truthy (preview img) then Some (preview img) else None
  | None => None
  end.

(** The cleanup of the preview effect, created in state [s]:
    [if (previewUrl) URL.revokeObjectURL(previewUrl)]. *)
Definition revokePreview (s : AppState) (urls : gset string) : gset string :=
  match previewUrl s with
  | Some url => urls ∖ {[url]}
  | None => urls
  end.

(** One event in the page: an upload first creates its URL; after the
    render, when [poseImage] changed, the cleanup of the previous preview
    effect runs. *)
Definition stepPage (p : Page) (e : Event) : Page :=
  let before := ui (world p) in
  let created :=
    match e with
    | PoseImageUpload _ url => {[url]} ∪ objectURLs p
    | _ => objectURLs p
    end in
  let w' := step (world p) e in
  mkPage w'
    (if decide (poseImage before = poseImage (ui w')) then created
     else revokePreview before created).

(** The component is removed from the page: the last cleanup runs. *)
Definition unmount (p : Page) : gset string :=
  revokePreview (ui (world p)) (objectURLs p).

(** At most the preview of the current pose image is live. *)
Definition previewsTracked (p : Page) : Prop :=
  match poseImage (ui (world p)) with
  | Some img => preview img <> "" /\ objectURLs p = {[preview img]}
  | None => objectURLs p = ∅
  end.

(** Every call of [generatePoseDescription] made so far had an input the
    operation accepts. *)
Definition describeCallsAccepted (w : World) : Prop :=
  Forall (fun call => exists parts,
            GeminiService.describeParts (fst call) (snd call) = Fulfilled parts)
         (describeCalls w).

(** A call of [generatePoseDescription] whose text, when it has one, is
    not blank. *)
Definition textCallNotBlank (call : option ImagePayload * option string) : Prop :=
  forall t, snd call = Some t -> blank t = false.

(** The result section, with its "Try New Pose" button, is rendered:
    [generatedImage && !isLoading]. *)
Definition tryNewPoseOffered (s : AppState) : bool :=
  match generatedImage s with
  | Some url => truthy url
  | None => false
  end && negb (isLoading s).

(** Events that only edit a field of the form. *)
Definition isEdit (e : Event) : bool :=
  match e with
  | PromptChange _ | PoseImageUpload _ _ | DescriptionChange _ => true
  | _ => false
  end.

(** The fields a generation reads or leaves to the user: everything but
    [generatedImage], [isLoading] and [error]. *)
Definition sourceFields (s : AppState) :=
  (baseImage s, poseImage s, prompt s, poseSourceMode s, poseDescription s,
   isPreviewLoading s, showDescriptionEditor s, debouncedPrompt s, debouncedPoseImage s).

(** What every call of one generation is made with: the stored identity,
    the description and the mode the callback closed over, and no pose
    image outside image mode. *)
Definition callMatches (s : AppState)
    (call : ImagePayload * GeminiService.GenerateOptions) : Prop :=
  baseImage s = Some (fst call) /\
  GeminiService.poseDescription (snd call) = poseDescription s /\
  (poseSourceMode s = Some image -> GeminiService.mode (snd call) = image) /\
  (poseSourceMode s <> Some image ->
   GeminiService.mode (snd call) = text /\ GeminiService.poseImage (snd call) = None).

End App.

(** ** The earlier revision: a backend function, its client, and the
    component that calls it *)

Module Wire.

Export GeminiService (Mode(..), ImagePayload, mkImagePayload).

(** The options both sides declare: the pose and its modifiers are in
    [userPrompt]. *)
Record GenerateOptions : Type := mkGenerateOptions {
  mode : Mode;
  poseImage : option ImagePayload;
  userPrompt : string
}.

(** The body of a request, as the function reads it: either field may be
    missing. *)
Record RequestBody : Type := mkRequestBody {
  baseImage : option ImagePayload;
  options : option GenerateOptions
}.

Record Request : Type := mkRequest {
  method : string;
  body : option RequestBody
}.

(** The JSON object of an answer: its [error] and [imageData] fields. *)
Record Result : Type := mkResult {
  error : option string;
  imageData : option string
}.

(** An answer: its status, and what [response.json()] gives. *)
Record HttpResponse : Type := mkHttpResponse {
  status : nat;
  json : settled Result
}.

(** [response.ok] *)
Definition ok (r : HttpResponse) : bool := (200 <=? status r) && (status r <=? 299).

End Wire.

(** *** functions/src/index.ts *)

Module Functions.

Import Wire.

(** [res.status(code).json({ error: message })] *)
Definition errorAnswer (code : nat) (message : string) : HttpResponse :=
  mkHttpResponse code (Fulfilled (mkResult (Some message) None)).

(** [res.status(200).json({ imageData: data })] *)
Definition imageAnswer (data : string) : HttpResponse :=
  mkHttpResponse 200 (Fulfilled (mkResult None (Some data))).

Section Handler.

(** The two instruction templates, as functions of the user prompt. *)
Variable instructionPrompt : Mode -> string -> string.

(** [ai.models.generateContent] for the image model. *)
Variable generateContent : list GeminiService.Part -> settled GeminiService.Response.

Definition undefinedBodyError : thrown :=
  ErrorObject "Cannot destructure property 'baseImage' of 'req.body' as it is undefined.".

(** [firstPart?.text?.includes("Pose detection failed")] *)
Definition poseDetectionText (parts : option (list GeminiService.Part)) : bool :=
  match parts with
  | Some (GeminiService.TextPart t :: _) => includes t "Pose detection failed"
  | _ => false
  end.

(** The [try] block: what it answers, or what it throws. *)
Definition generate (req : Request) : settled HttpResponse :=
  request ← match body req with
            | Some b => Fulfilled b
            | None => Rejected undefinedBodyError
            end;
  match baseImage request, options request with
  | Some base, Some opts =>
      let basePart := GeminiService.InlineData (GeminiService.mimeType base)
                        (GeminiService.data base) in
      parts ← match mode opts with
              | image =>
                  match poseImage opts with
                  | None => Rejected (ErrorObject "A pose image is required when using image mode.")
                  | Some p =>
                      Fulfilled [basePart;
                                 GeminiService.InlineData (GeminiService.mimeType p)
                                   (GeminiService.data p);
                                 GeminiService.TextPart (instructionPrompt image (userPrompt opts))]
                  end
              | text =>
                  Fulfilled [basePart;
                             GeminiService.TextPart (instructionPrompt text (userPrompt opts))]
              end;
      response ← generateContent parts;
      if poseDetectionText (GeminiService.candidateParts response)
      then Rejected (ErrorObject "Pose detection failed — please upload a clearer pose reference image.")
      else
        match GeminiService.candidateParts response with
        | None => Rejected GeminiService.undefinedPartsError
        | Some answer =>
            match GeminiService.firstInlineData answer with
            | Some bytes => Fulfilled (imageAnswer bytes)
            | None => Rejected (ErrorObject "No image was generated by the API.")
            end
        end
  | _, _ => Fulfilled (errorAnswer 400 "Missing baseImage or options in request body.")
  end.

(** The request handler, for a request the CORS middleware passed on: the
    method check, the [try] block, and the [catch] that answers 500 with
    the message of what was thrown. *)
Definition generatePose (req : Request) : HttpResponse :=
  if negb (String.eqb (method req) "POST") then errorAnswer 405 "Method Not Allowed"
  else match generate req with
       | Fulfilled answer => answer
       | Rejected (ErrorObject message) => errorAnswer 500 message
       | Rejected OtherValue => errorAnswer 500 "An internal server error occurred."
       end.

End Handler.

End Functions.

(** *** The client of the function *)

Module BackendClient.

Import Wire.

Definition unknownError : thrown :=
  ErrorObject "An unknown error occurred while communicating with the generation service.".

(** The [catch] block: an [Error] is thrown again, anything else is
    replaced. *)
Definition rethrow {A} (p : settled A) : settled A :=
  match p with
  | Fulfilled v => Fulfilled v
  | Rejected (ErrorObject m) => Rejected (ErrorObject m)
  | Rejected OtherValue => Rejected unknownError
  end.

(** [generatePose]: [fetch] posts the base image and the options to the
    function; the result is [result.imageData], which a body without that
    field leaves undefined. *)
Definition generatePose (fetch : Request -> settled HttpResponse)
    (base : ImagePayload) (opts : GenerateOptions) : settled (option string) :=
  rethrow
    (response ← fetch (mkRequest "POST" (Some (mkRequestBody (Some base) (Some opts))));
     result ← json response;
     if negb (ok response) then
       Rejected (ErrorObject
         (match error result with
          | Some e => if truthy e then e
                      else "Request failed with status " +:+ pretty (status response)
          | None => "Request failed with status " +:+ pretty (status response)
          end))
     else Fulfilled (imageData result)).

(** The client in front of the function itself. *)
Definition throughFunction (prompts : Mode -> string -> string)
    (model : list GeminiService.Part -> settled GeminiService.Response)
    (base : ImagePayload) (opts : GenerateOptions) : settled (option string) :=
  generatePose (fun req => Fulfilled (Functions.generatePose prompts model req)) base opts.

End BackendClient.

(** *** The component of that revision *)

Module AppV1.

Import Wire.

Record State : Type := mkState {
  baseImage : option ImagePayload;
  poseImage : option App.ImageFile;
  prompt : string;
  poseSourceMode : option Mode;
  generatedImage : option string;
  isLoading : bool;
  error : option string
}.

(** [!value] for a value that is an object or [null]. *)
Definition isNull {A} (value : option A) : bool :=
  match value with
  | Some _ => false
  | None => true
  end.

(** [poseSourceMode === m] *)
Definition modeIs (m : Mode) (s : State) : bool :=
  match poseSourceMode s, m with
  | Some text, text | Some image, image => true
  | _, _ => false
  end.

(** [isGenerateDisabled] *)
Definition isGenerateDisabled (s : State) : bool :=
  isLoading s
  || isNull (baseImage s)
  || isNull (poseSourceMode s)
  || (modeIs image s && isNull (poseImage s))
  || (modeIs text s && negb (truthy (trim (prompt s)))).

(** [validationMessage] *)
Definition validationMessage (s : State) : string :=
  if negb (isNull (baseImage s)) && isNull (poseSourceMode s)
  then "Choose whether to generate from Text or Pose Image."
  else if modeIs image s && isNull (poseImage s)
  then "Please upload a pose reference image to continue."
  else if modeIs text s && negb (truthy (trim (prompt s)))
  then "Please describe the desired pose in the text prompt."
  else "".

(** `data:image/png;base64,${result}` *)
Definition dataUrl (result : option string) : string :=
  "data:image/png;base64," +:+ match result with Some r => r | None => "undefined" end.

(** [handleGenerate]: one attempt.  [convert] is [fileToBase64] and
    [generatePose] the client; the calls made are returned with the state. *)
Definition handleGenerate (convert : App.File -> settled string)
    (generatePose : ImagePayload -> GenerateOptions -> settled (option string))
    (s : State) : State * list (ImagePayload * GenerateOptions) :=
  match baseImage s, poseSourceMode s with
  | Some base, Some m =>
      let payload : settled (option ImagePayload) :=
        match m, poseImage s with
        | image, Some img =>
            base64 ← convert (App.file img);
            mret (Some (mkImagePayload base64 (App.type (App.file img))))
        | _, _ => mret None
        end in
      let finish (img : option string) (err : option string) calls :=
        (mkState (baseImage s) (poseImage s) (prompt s) (poseSourceMode s)
           img false err, calls) in
      match payload with
      | Rejected err =>
          finish None (Some ("Failed to generate image. " +:+ message_of err)) []
      | Fulfilled poseImagePayload =>
          let opts := mkGenerateOptions m poseImagePayload (prompt s) in
          match generatePose base opts with
          | Fulfilled result => finish (Some (dataUrl result)) None [(base, opts)]
          | Rejected err =>
              finish None (Some ("Failed to generate image. " +:+ message_of err))
                [(base, opts)]
          end
      end
  | _, _ => (s, [])
  end.

End AppV1.

(** ** Sample inputs *)

Module Samples.

Import App.

Definition rex : ImagePayload := mkImagePayload "UkVY" "image/png".

Definition posePhoto : File := mkFile "cG9zZQ==" "image/jpeg".

(** A session in which the text "wave" is replaced by "sit" while the
    call made for it is still in flight; the call for "sit" (promise 1)
    has resolved, the call for "wave" (promise 0) has not. *)
Definition supersededSession : World :=
  run (initialWorld (Some rex))
    [PoseSourceChange text;
     PromptChange "wave"; DebouncedPromptUpdate;
     PromptChange "sit"; DebouncedPromptUpdate;
     Settle 1 (Fulfilled "A person sitting.")].

(** A session with a description ready for confirmation. *)
Definition describedSession : World :=
  run (initialWorld (Some rex))
    [PoseSourceChange text;
     PromptChange "stand"; DebouncedPromptUpdate;
     Settle 0 (Fulfilled "A person standing.")].

(** The same, after the user replaced the description by one space. *)
Definition spaceDescription : AppState :=
  ui (step describedSession (DescriptionChange " ")).

(** A pose image chosen in image mode, and described. *)
Definition imageSession : World :=
  run (initialWorld (Some rex))
    [PoseSourceChange image;
     PoseImageUpload posePhoto "blob:1"; DebouncedPoseImageUpdate;
     Settle 0 (Fulfilled "cG9zZQ==");
     Settle 0 (Fulfilled "A person with arms crossed.")].

Definition alwaysRenders : RenderEnv :=
  mkRenderEnv (fun _ _ => Fulfilled "cG9zZQ==") (fun _ _ _ => Fulfilled "aW1n").

(** A backend whose model answers with the text of the pose-detection
    signal instead of an image. *)
Definition refusingBackend : GeminiService.Backend :=
  GeminiService.mkBackend (Some "key")
    (fun _ _ => Fulfilled (GeminiService.mkResponse None
                  (Some [GeminiService.TextPart " POSE_DETECTION_FAILED "]))).

Definition refusingService : RenderEnv :=
  serviceEnv (fun _ description => description)
    (fun _ _ => Fulfilled "cG9zZQ==") (fun _ => refusingBackend).

Definition keyedBackend : GeminiService.Backend :=
  GeminiService.mkBackend (Some "key")
    (fun _ _ => Fulfilled (GeminiService.mkResponse (Some " A person standing. ") None)).

(** Every call fails with a network error. *)
Definition neverRenders : RenderEnv :=
  mkRenderEnv (fun _ _ => Fulfilled "cG9zZQ==")
    (fun n _ _ => Rejected (ErrorObject ("fetch failed " +:+ pretty n))).

(** A model that answers with a remark and an image. *)
Definition paintingModel (model : string) (parts : list GeminiService.Part)
  : settled GeminiService.Response :=
  Fulfilled (GeminiService.mkResponse None
               (Some [GeminiService.TextPart "Here is the pose.";
                      GeminiService.InlineData "image/png" "aW1n"])).

Definition keylessBackend : GeminiService.Backend :=
  GeminiService.mkBackend None paintingModel.

Definition paintingBackend : GeminiService.Backend :=
  GeminiService.mkBackend (Some "key") paintingModel.

Definition echo (m : Mode) (description : string) : string := description.

Definition reads (n : nat) (f : File) : settled string := Fulfilled (content f).

(** A service without a configured key. *)
Definition keylessService : RenderEnv :=
  serviceEnv echo reads (fun _ => keylessBackend).

(** A service whose model always answers with an image. *)
Definition paintingService : RenderEnv :=
  serviceEnv echo reads (fun _ => paintingBackend).

(** The answer of a model that saw several people: the signal, then an
    image all the same. *)
Definition crowdedAnswer : GeminiService.Response :=
  GeminiService.mkResponse None
    (Some [GeminiService.TextPart "MULTIPLE_PEOPLE_DETECTED";
           GeminiService.InlineData "image/png" "aW1n"]).

Definition crowdedBackend : GeminiService.Backend :=
  GeminiService.mkBackend (Some "key") (fun _ _ => Fulfilled crowdedAnswer).

(** Image mode chosen while the description of an earlier text is still
    awaited; the late answer fills the editor, with no pose image. *)
Definition lateTextInImageMode : World :=
  run (initialWorld (Some rex))
    [PoseSourceChange text;
     PromptChange "wave"; DebouncedPromptUpdate;
     PoseSourceChange image;
     Settle 0 (Fulfilled "A person waving.")].

(** Text mode, "wave" typed and debounced, then image mode chosen. *)
Definition switchedToImage : World :=
  run (initialWorld (Some rex))
    [PoseSourceChange text;
     PromptChange "wave"; DebouncedPromptUpdate;
     PoseSourceChange image].

(** A service whose network fails twice before the model answers. *)
Definition flakyBackend (n : nat) : GeminiService.Backend :=
  GeminiService.mkBackend (Some "key")
    (fun model parts =>
       match n with
       | 0 => Rejected (ErrorObject "fetch failed")
       | 1 => Rejected OtherValue
       | _ => paintingModel model parts
       end).

Definition flakyService : RenderEnv := serviceEnv echo reads flakyBackend.

(** A service whose network is down. *)
Definition offlineService : RenderEnv :=
  serviceEnv echo reads
    (fun _ => GeminiService.mkBackend (Some "key")
                (fun _ _ => Rejected (ErrorObject "fetch failed"))).

(** Text mode: "wave" is typed and sent to Describe, then the prompt is
    replaced by three spaces, which reach the effect, while the call for
    "wave" (promise 0) is still in flight. *)
Definition clearedWhileDescribing : World :=
  run (initialWorld (Some rex))
    [PoseSourceChange text;
     PromptChange "wave"; DebouncedPromptUpdate;
     PromptChange "   "; DebouncedPromptUpdate].

(** The setter calls, in the order they happen, when the identity is
    deleted while a confirmed generation awaits its first call, which
    then succeeds: the start of [handleGenerate], the deletion, the end of
    [handleGenerate]. *)
Definition deletedDuringGeneration : AppState :=
  ui describedSession
    |> setIsLoading true |> setError None |> setGeneratedImage None
    |> handleDeleteBaseImage true
    |> setGeneratedImage (Some "data:image/png;base64,aW1n")
    |> setIsLoading false.

(** A page showing the preview of one uploaded pose image. *)
Definition previewPage : Page :=
  stepPage (stepPage (mkPage (initialWorld (Some rex)) ∅) (PoseSourceChange image))
    (PoseImageUpload posePhoto "blob:1").

End Samples.

(** * Properties *)

Import App.

(** ** Strings *)

Section StringFacts.

Lemma truthy_false_iff (s : string) : truthy s = false <-> s = "".
Proof. destruct s; simpl; split; congruence. Qed.

Lemma truthy_true_iff (s : string) : truthy s = true <-> s <> "".
Proof. destruct s; simpl; split; congruence. Qed.







Lemma trimEnd_blank (s : string) : blank s = true -> trimEnd s = "".
Proof.
  induction s as [|a s IH]; simpl; [reflexivity|].
  intros [Ha Hs]%andb_prop. now rewrite (IH Hs), Ha.
Qed.

Lemma blank_trimStart (s : string) : blank s = true -> blank (trimStart s) = true.
Proof.
  induction s as [|a s IH]; simpl; [reflexivity|].
  intros [Ha Hs]%andb_prop. rewrite Ha. auto.
Qed.

(** Blank text trims to the empty string. *)
Lemma trim_blank (s : string) : blank s = true -> trim s = "".
Proof. intros H. unfold trim. now apply trimEnd_blank, blank_trimStart. Qed.

Lemma trimEnd_empty_blank (s : string) : trimEnd s = "" -> blank s = true.
Proof.
  induction s as [|a s IH]; simpl; [reflexivity|].
  destruct (trimEnd s) eqn:E; [|discriminate].
  destruct (isWhiteSpace a); [intros _; simpl; auto | discriminate].
Qed.

Lemma blank_of_trimStart (s : string) : blank (trimStart s) = true -> blank s = true.
Proof.
  induction s as [|a s IH]; simpl; [reflexivity|].
  destruct (isWhiteSpace a) eqn:E; simpl; [exact IH|].
  rewrite E. simpl. congruence.
Qed.

(** Only blank text does. *)
Lemma trim_empty_blank (s : string) : trim s = "" -> blank s = true.
Proof. intros H. now apply blank_of_trimStart, trimEnd_empty_blank. Qed.

End StringFacts.

(** ** The describe operation *)

Section Describe.

Import GeminiService.

Lemma describeParts_image (i : ImagePayload) (txt : option string) :
  describeParts (Some i) txt
  = Fulfilled [InlineData (mimeType i) (data i); TextPart describeImagePrompt].
Proof. reflexivity. Qed.

Lemma describeParts_rejected (img : option ImagePayload) (txt : option string) (e : thrown) :
  describeParts img txt = Rejected e <->
  e = missingInputError /\ img = None /\ (txt = None \/ txt = Some "").
Proof.
  unfold describeParts. split.
  - destruct img as [i|]; [discriminate|].
    destruct txt as [[|a t]|]; simpl; intros [= <-]; auto.
  - intros (-> & -> & [-> | ->]); reflexivity.
Qed.

(** C10, as stated, fails on an empty text: the text is given (it is not
    [null]) and no image is, yet the operation raises the missing-input
    error. *)
Lemma describe_rejects_empty_text :
  Some "" <> (None : option string) /\
  generatePoseDescription Samples.keyedBackend None (Some "")
  = Rejected missingInputError.
Proof. split; [discriminate | reflexivity]. Qed.

(** C10 (amended): given an image, the describe operation submits only
    the image with the fixed image instruction and ignores the text,
    whatever it is; with a key configured it raises the missing-input error,
    without asking the model, exactly when the image is absent and the text
    is absent or the empty string: a text that is not empty is submitted in
    its instruction.  Without a key it raises the key error before it looks
    at its input. *)
Theorem describe_prefers_image (be : Backend) (img : option ImagePayload)
    (txt : option string) :
  (getAiClient be = Fulfilled tt ->
   (forall i, img = Some i ->
      generatePoseDescription be img txt
      = (response ← generateContent be "gemini-2.5-flash"
                      [InlineData (mimeType i) (data i); TextPart describeImagePrompt];
         match responseText response with
         | Some t => Fulfilled (trim t)
         | None => Rejected undefinedTrimError
         end)) /\
   (img = None -> txt = None \/ txt = Some "" ->
      generatePoseDescription be img txt = Rejected missingInputError) /\
   (forall t, img = None -> txt = Some t -> t <> "" ->
      generatePoseDescription be img txt
      = (response ← generateContent be "gemini-2.5-flash" [TextPart (describeTextPrompt t)];
         match responseText response with
         | Some d => Fulfilled (trim d)
         | None => Rejected undefinedTrimError
         end))) /\
  (forall e, getAiClient be = Rejected e ->
     generatePoseDescription be img txt = Rejected e).
Proof.
  unfold generatePoseDescription. split.
  - intros ->. split; [|split].
    + intros i ->. reflexivity.
    + intros -> [-> | ->]; reflexivity.
    + intros t -> -> Ht%truthy_true_iff. simpl. now rewrite Ht.
  - intros e ->. reflexivity.
Qed.

Lemma describe_prefers_image_witness :
  generatePoseDescription Samples.keyedBackend (Some Samples.rex) (Some "a person waving")
  = (response ← generateContent Samples.keyedBackend "gemini-2.5-flash"
                  [InlineData (mimeType Samples.rex) (data Samples.rex);
                   TextPart describeImagePrompt];
     match responseText response with
     | Some t => Fulfilled (trim t)
     | None => Rejected undefinedTrimError
     end).
Proof.
  apply (describe_prefers_image Samples.keyedBackend (Some Samples.rex)
           (Some "a person waving")).
  - reflexivity.
  - reflexivity.
Defined.

End Describe.

(** ** Synchronous handlers *)

Section Handlers.

Lemma rerender_same_deps (before : AppState) (w : World) :
  effectDeps before = effectDeps (ui w) -> rerender before w = w.
Proof. intros H. unfold rerender. now destruct (decide _). Qed.

Lemma rerender_no_mode (before : AppState) (w : World) :
  poseSourceMode (ui w) = None -> rerender before w = w.
Proof.
  intros H. unfold rerender, getPoseDescription.
  destruct (decide _); [reflexivity | now rewrite H].
Qed.

Lemma step_TryNewPose (w : World) : step w TryNewPose = withUi handleTryNewPose w.
Proof. unfold step. now apply rerender_no_mode. Qed.

Lemma step_DeleteBaseImage (w : World) :
  step w (DeleteBaseImage true) = withUi (handleDeleteBaseImage true) w.
Proof. unfold step. now apply rerender_no_mode. Qed.

Lemma step_PoseImageUpload (w : World) (f : File) (url : string) :
  step w (PoseImageUpload f url) = withUi (handlePoseImageUpload f url) w.
Proof. unfold step. now apply rerender_same_deps. Qed.

Lemma handleTryNewPose_twice (s : AppState) :
  handleTryNewPose (handleTryNewPose s) = handleTryNewPose s.
Proof. reflexivity. Qed.

(** C2: a confirmed deletion of the identity clears the pose source, the
    result and the error, and leaves the pose description as it was: the
    handler has no [setPoseDescription]. *)
Theorem delete_identity_keeps_description (w : World) :
  let w' := step w (DeleteBaseImage true) in
  baseImage (ui w') = None /\
  poseSourceMode (ui w') = None /\ poseImage (ui w') = None /\ prompt (ui w') = "" /\
  generatedImage (ui w') = None /\ error (ui w') = None /\
  showDescriptionEditor (ui w') = false /\
  poseDescription (ui w') = poseDescription (ui w).
Proof. cbv zeta. rewrite step_DeleteBaseImage. repeat split. Qed.

(** The description produced during the session survives the deletion. *)
Example delete_identity_after_description :
  poseDescription (ui (step Samples.describedSession (DeleteBaseImage true)))
  = "A person standing.".
Proof. vm_compute. reflexivity. Qed.

(** C8, as stated, fails from a state without an identity: when the
    identity is deleted while a generation is awaited, the result arrives
    and is shown with its "Try New Pose" button, and the action leaves the
    workflow in [NoIdentity], once as well as twice. *)
Lemma try_new_pose_without_identity :
  let s := Samples.deletedDuringGeneration in
  tryNewPoseOffered s = true /\
  baseImage s = None /\
  phase (handleTryNewPose s) = NoIdentity /\
  phase (handleTryNewPose (handleTryNewPose s)) = NoIdentity /\
  phase (ui (step (step (mkWorld s ∅ 1 []) TryNewPose) TryNewPose)) <> AwaitingPoseSourceChoice.
Proof. vm_compute. repeat split. discriminate. Qed.

(** C8 (amended): "try new pose" once or twice gives the same state, in
    which the pose source, the description, the result and the error are
    absent.  The action leaves the identity and the loading flag alone:
    that state is in phase [AwaitingPoseSourceChoice] when an identity is
    stored and no generation is running, in [NoIdentity] when no identity
    is stored, and in [Generating] otherwise. *)
Theorem try_new_pose_idempotent (w : World) :
  let w1 := step w TryNewPose in
  let w2 := step w1 TryNewPose in
  w2 = w1 /\
  (poseSourceMode (ui w1) = None /\ poseImage (ui w1) = None /\ prompt (ui w1) = "") /\
  poseDescription (ui w1) = "" /\
  generatedImage (ui w1) = None /\
  error (ui w1) = None /\
  showDescriptionEditor (ui w1) = false /\
  (baseImage (ui w1) = baseImage (ui w) /\ isLoading (ui w1) = isLoading (ui w)) /\
  (baseImage (ui w) <> None -> isLoading (ui w) = false ->
   phase (ui w1) = AwaitingPoseSourceChoice /\ phase (ui w2) = AwaitingPoseSourceChoice) /\
  (baseImage (ui w) = None -> phase (ui w1) = NoIdentity) /\
  (baseImage (ui w) <> None -> isLoading (ui w) = true -> phase (ui w1) = Generating).
Proof.
  cbv zeta. rewrite !step_TryNewPose.
  do 6 (split; [reflexivity || (repeat split) |]).
  split; [split; reflexivity|].
  unfold phase. simpl. split; [|split].
  - intros Hbase Hloading.
    destruct (baseImage (ui w)); [now rewrite Hloading | congruence].
  - intros ->. reflexivity.
  - intros Hbase Hloading.
    destruct (baseImage (ui w)); [now rewrite Hloading | congruence].
Qed.

Lemma try_new_pose_idempotent_witness :
  let w := withUi (setGeneratedImage (Some "data:image/png;base64,aW1n"))
             Samples.describedSession in
  phase (ui w) = Result /\
  phase (ui (step w TryNewPose)) = AwaitingPoseSourceChoice /\
  phase (ui (step (step w TryNewPose) TryNewPose)) = AwaitingPoseSourceChoice.
Proof.
  cbv zeta. split; [reflexivity|].
  apply (try_new_pose_idempotent
           (withUi (setGeneratedImage (Some "data:image/png;base64,aW1n"))
              Samples.describedSession)).
  - vm_compute. discriminate.
  - reflexivity.
Defined.

(** C9: uploading a pose reference image stores the image with its preview
    and sets the text prompt to the empty string; no description is
    requested by the upload itself. *)
Theorem pose_upload_clears_prompt (w : World) (f : File) (url : string) :
  let w' := step w (PoseImageUpload f url) in
  prompt (ui w') = "" /\
  poseImage (ui w') = Some (mkImageFile f url) /\
  describeCalls w' = describeCalls w /\ inflight w' = inflight w.
Proof. cbv zeta. rewrite step_PoseImageUpload. repeat split. Qed.

End Handlers.

(** ** The description effect *)

Section Normalizer.

Lemma getPoseDescription_blank_text (w : World) :
  poseSourceMode (ui w) = Some text ->
  blank (debouncedPrompt (ui w)) = true ->
  getPoseDescription w
  = w |> withUi (setShowDescriptionEditor false) |> withUi (setPoseDescription "").
Proof.
  intros Hmode Hblank. unfold getPoseDescription.
  rewrite Hmode, (trim_blank _ Hblank). reflexivity.
Qed.

Lemma step_Settle (w : World) (id : nat) (r : settled string) :
  step w (Settle id r) = settle id r w.
Proof.
  unfold step. apply rerender_same_deps. unfold settle.
  destruct (inflight w !! id) as [[img | branch img txt]|]; [destruct r | destruct r |];
    reflexivity.
Qed.

(** C1, as stated, fails: the text "wave" was replaced by "sit", the
    description of "sit" is in place, and the late answer to the call
    made for "wave" replaces it. *)
Lemma stale_description_overwrites :
  let w := Samples.supersededSession in
  inflight w !! 0 = Some (DescribePending text None (Some "wave")) /\
  prompt (ui w) = "sit" /\ debouncedPrompt (ui w) = "sit" /\
  describeCalls w = [(None, Some "sit"); (None, Some "wave")] /\
  poseDescription (ui w) = "A person sitting." /\
  poseDescription (ui (step w (Settle 0 (Fulfilled "A person waving."))))
  = "A person waving.".
Proof. vm_compute. repeat split. Qed.

(** C1 (amended): when a Describe call in flight resolves with a
    description, that description becomes the pose description and the
    editor is shown, whatever source the component holds by then; the
    result is not compared with the current source and the source itself is
    left as it is.  The description in place is that of the call that
    resolved last. *)
Theorem describe_result_always_stored (w : World) (id : nat) (branch : Mode)
    (img : option ImagePayload) (txt : option string) (description : string) :
  inflight w !! id = Some (DescribePending branch img txt) ->
  let w' := step w (Settle id (Fulfilled description)) in
  poseDescription (ui w') = description /\
  showDescriptionEditor (ui w') = true /\
  isPreviewLoading (ui w') = false /\
  inflight w' !! id = None /\
  effectDeps (ui w') = effectDeps (ui w) /\ prompt (ui w') = prompt (ui w) /\
  poseImage (ui w') = poseImage (ui w).
Proof.
  intros Hid. cbv zeta. rewrite step_Settle. unfold settle. rewrite Hid.
  repeat split. apply lookup_delete_eq.
Qed.

Lemma describe_result_always_stored_witness :
  let w' := step Samples.supersededSession (Settle 0 (Fulfilled "A person waving.")) in
  poseDescription (ui w') = "A person waving." /\
  showDescriptionEditor (ui w') = true /\
  isPreviewLoading (ui w') = false /\
  inflight w' !! 0 = None /\
  effectDeps (ui w') = effectDeps (ui Samples.supersededSession) /\
  prompt (ui w') = prompt (ui Samples.supersededSession) /\
  poseImage (ui w') = poseImage (ui Samples.supersededSession).
Proof.
  apply (describe_result_always_stored Samples.supersededSession 0 text None
           (Some "wave") "A person waving.").
  vm_compute. reflexivity.
Defined.

(** X24: a Describe call that fails leaves the pose description as it
    was, hides the editor and shows the error with the prefix of its
    branch. *)
Lemma describe_failure_keeps_description (w : World) (id : nat) (branch : Mode)
    (img : option ImagePayload) (txt : option string) (err : thrown) :
  inflight w !! id = Some (DescribePending branch img txt) ->
  let w' := step w (Settle id (Rejected err)) in
  poseDescription (ui w') = poseDescription (ui w) /\
  showDescriptionEditor (ui w') = false /\
  error (ui w') = Some (describeErrorPrefix branch +:+ message_of err).
Proof.
  intros Hid. cbv zeta. rewrite step_Settle. unfold settle. rewrite Hid.
  repeat split.
Qed.

End Normalizer.

(** ** Error classification *)

Section Classification.

Lemma classifyError_break (i : nat) (errorMessage : string) :
  snd (classifyError i errorMessage) = isFatal errorMessage.
Proof.
  unfold classifyError, isFatal.
  destruct (includes errorMessage authSignal); [reflexivity|].
  destruct (includes errorMessage poseSignal); [reflexivity|].
  destruct (includes errorMessage peopleSignal); reflexivity.
Qed.

Lemma classifyError_transient (i : nat) (errorMessage : string) :
  isFatal errorMessage = false ->
  classifyError i errorMessage = (transientMessage i errorMessage, false).
Proof.
  unfold classifyError, isFatal.
  destruct (includes errorMessage authSignal); [discriminate|].
  destruct (includes errorMessage poseSignal); [discriminate|].
  destruct (includes errorMessage peopleSignal); [discriminate|reflexivity].
Qed.





End Classification.

(** ** The generation retry loop *)

Section RetryLoop.

Variable env : RenderEnv.
Variable cap : AppState.
Variable b : ImagePayload.

Lemma attempts_stop (fuel i : nat) (success : bool) (run : GenRun) :
  (i <? 3) && negb success = false ->
  attempts fuel env cap b i success run = Some run.
Proof. intros H. destruct fuel; simpl; rewrite H; reflexivity. Qed.

(** Three rounds of fuel are enough from index 0: the loop always ends. *)
Lemma attempts_total (fuel : nat) :
  forall (i : nat) (success : bool) (run : GenRun),
    3 <= fuel + i -> is_Some (attempts fuel env cap b i success run).
Proof.
  induction fuel as [|fuel IH]; intros i success run Hfuel.
  - rewrite attempts_stop; [eauto|].
    replace (i <? 3) with false; [reflexivity|].
    symmetry. apply Nat.ltb_ge. lia.
  - destruct ((i <? 3) && negb success) eqn:E; [|rewrite attempts_stop; eauto].
    cbn [attempts]. rewrite E.
    destruct (poseImagePayloadOf env cap i) as [payload|err].
    + destruct (render env _ b _) as [result|err].
      * apply IH. lia.
      * destruct (classifyError i (message_of err)) as [shown [|]]; [eauto|].
        apply IH. lia.
    + destruct (classifyError i (message_of err)) as [shown [|]]; [eauto|].
      apply IH. lia.
Qed.

(** Every round makes at most one call, and there are at most [3 - i]
    rounds left at index [i]. *)
Lemma attempts_calls_bound (fuel : nat) :
  forall (i : nat) (success : bool) (run run' : GenRun),
    attempts fuel env cap b i success run = Some run' ->
    length (renderCalls run') <= length (renderCalls run) + (3 - i).
Proof.
  induction fuel as [|fuel IH]; intros i success run run'.
  - simpl. destruct ((i <? 3) && negb success); [discriminate|].
    intros [= <-]. lia.
  - destruct ((i <? 3) && negb success) eqn:E;
      [|rewrite attempts_stop by assumption; intros [= <-]; lia].
    assert (i < 3) as Hi
      by (apply andb_prop in E as [E _]; now apply Nat.ltb_lt in E).
    cbn [attempts]. rewrite E.
    destruct (poseImagePayloadOf env cap i) as [payload|err].
    + destruct (render env _ b _) as [result|err].
      * intros H%IH. simpl in H. lia.
      * destruct (classifyError i (message_of err)) as [shown [|]].
        -- intros [= <-]. simpl. lia.
        -- intros H%IH. simpl in H. lia.
    + destruct (classifyError i (message_of err)) as [shown [|]].
      * intros [= <-]. simpl. lia.
      * intros H%IH. simpl in H. lia.
Qed.

(** One round, by the outcome of its call. *)
Lemma attempts_success (fuel i : nat) (run : GenRun)
    (payload : option ImagePayload) (result : string) :
  i < 3 ->
  poseImagePayloadOf env cap i = Fulfilled payload ->
  render env (length (renderCalls run)) b (optionsOf cap payload) = Fulfilled result ->
  attempts (S fuel) env cap b i false run
  = Some (run |> logRender b (optionsOf cap payload)
              |> onState (setGeneratedImage (Some ("data:image/png;base64," +:+ result)))).
Proof.
  intros Hi Hpayload Hrender. cbn [attempts].
  apply Nat.ltb_lt in Hi. rewrite Hi. cbn [andb negb].
  rewrite Hpayload, Hrender. apply attempts_stop.
  now rewrite andb_false_r.
Qed.

Lemma attempts_transient (fuel i : nat) (run : GenRun)
    (payload : option ImagePayload) (err : thrown) :
  i < 3 ->
  poseImagePayloadOf env cap i = Fulfilled payload ->
  render env (length (renderCalls run)) b (optionsOf cap payload) = Rejected err ->
  isFatal (message_of err) = false ->
  attempts (S fuel) env cap b i false run
  = attempts fuel env cap b (S i) false
      (run |> logRender b (optionsOf cap payload)
           |> onState (setError (Some (transientMessage i (message_of err))))).
Proof.
  intros Hi Hpayload Hrender Htransient. cbn [attempts].
  apply Nat.ltb_lt in Hi. rewrite Hi. cbn [andb negb].
  rewrite Hpayload, Hrender, (classifyError_transient _ _ Htransient).
  reflexivity.
Qed.

Lemma attempts_fatal (fuel i : nat) (run : GenRun)
    (payload : option ImagePayload) (err : thrown) :
  i < 3 ->
  poseImagePayloadOf env cap i = Fulfilled payload ->
  render env (length (renderCalls run)) b (optionsOf cap payload) = Rejected err ->
  isFatal (message_of err) = true ->
  attempts (S fuel) env cap b i false run
  = Some (run |> logRender b (optionsOf cap payload)
              |> onState (setError (Some (fst (classifyError i (message_of err)))))).
Proof.
  intros Hi Hpayload Hrender Hfatal. cbn [attempts].
  apply Nat.ltb_lt in Hi. rewrite Hi. cbn [andb negb].
  rewrite Hpayload, Hrender.
  pose proof (classifyError_break i (message_of err)) as Hbreak.
  destruct (classifyError i (message_of err)) as [shown break].
  simpl in *. rewrite Hbreak, Hfatal. reflexivity.
Qed.

End RetryLoop.

Section Generate.

Lemma handleGenerate_guarded (env : RenderEnv) (s : AppState) (b : ImagePayload) :
  baseImage s = Some b -> poseDescription s <> "" ->
  handleGenerate env s
  = (run ← attempts 3 env s b 0 false
             (mkGenRun s [] |> onState (setIsLoading true)
                            |> onState (setError None)
                            |> onState (setGeneratedImage None));
     Some (run |> onState (setIsLoading false))).
Proof.
  intros Hbase Hdescription%truthy_true_iff. unfold handleGenerate.
  now rewrite Hbase, Hdescription.
Qed.

(** [handleGenerate] always runs to its end, within three calls. *)
Lemma handleGenerate_total (env : RenderEnv) (s : AppState) :
  exists run, handleGenerate env s = Some run /\ length (renderCalls run) <= 3.
Proof.
  unfold handleGenerate.
  destruct (baseImage s) as [b|]; [|exists (mkGenRun s []); simpl; split; [reflexivity|lia]].
  destruct (truthy (poseDescription s));
    [|exists (mkGenRun s []); simpl; split; [reflexivity|lia]].
  cbn [negb].
  destruct (attempts_total env s b 3 0 false
              (mkGenRun s [] |> onState (setIsLoading true)
                             |> onState (setError None)
                             |> onState (setGeneratedImage None)))
    as [run Hrun]; [lia|].
  rewrite Hrun. exists (run |> onState (setIsLoading false)).
  split; [reflexivity|].
  apply attempts_calls_bound in Hrun. simpl in *. lia.
Qed.

(** The request built at an attempt is made of what the run started
    with. *)
Lemma callMatches_optionsOf (env : RenderEnv) (s : AppState) (b : ImagePayload)
    (i : nat) (payload : option ImagePayload) :
  baseImage s = Some b ->
  poseImagePayloadOf env s i = Fulfilled payload ->
  callMatches s (b, optionsOf s payload).
Proof.
  intros Hbase Hpayload. unfold callMatches, optionsOf. simpl.
  split; [exact Hbase|]. split; [reflexivity|]. split.
  - intros ->. reflexivity.
  - intros Hmode. unfold poseImagePayloadOf in Hpayload.
    destruct (poseSourceMode s) as [[|]|]; try (now destruct Hmode);
      injection Hpayload as <-; split; reflexivity.
Qed.

(** C3: a generation makes at most three render calls; when the first
    two calls it makes fail with an error that carries none of the fatal
    signals and the third succeeds (the pose image payload being available
    at each attempt), exactly these three calls are made and the result of
    the third is stored as the generated image; the error of the second
    attempt stays in place beside it. *)
Theorem generate_retries_until_success (env : RenderEnv) (s : AppState) :
  (exists run, handleGenerate env s = Some run /\ length (renderCalls run) <= 3) /\
  (forall (b : ImagePayload) (p1 p2 p3 : option ImagePayload) (e1 e2 : thrown)
          (result : string),
     baseImage s = Some b -> poseDescription s <> "" ->
     poseImagePayloadOf env s 0 = Fulfilled p1 ->
     render env 0 b (optionsOf s p1) = Rejected e1 -> isFatal (message_of e1) = false ->
     poseImagePayloadOf env s 1 = Fulfilled p2 ->
     render env 1 b (optionsOf s p2) = Rejected e2 -> isFatal (message_of e2) = false ->
     poseImagePayloadOf env s 2 = Fulfilled p3 ->
     render env 2 b (optionsOf s p3) = Fulfilled result ->
     exists run,
       handleGenerate env s = Some run /\
       renderCalls run = [(b, optionsOf s p3); (b, optionsOf s p2); (b, optionsOf s p1)] /\
       length (renderCalls run) = 3 /\
       Forall (callMatches s) (renderCalls run) /\
       generatedImage (state run) = Some ("data:image/png;base64," +:+ result) /\
       isLoading (state run) = false /\
       error (state run) = Some (transientMessage 1 (message_of e2))).
Proof.
  split; [apply handleGenerate_total|].
  intros b p1 p2 p3 e1 e2 result Hbase Hdescription
         Hp1 Hfirst Ht1 Hp2 Hsecond Ht2 Hp3 Hthird.
  rewrite (handleGenerate_guarded env s b Hbase Hdescription).
  rewrite (attempts_transient env s b 2 0 _ p1 e1) by (assumption || lia).
  rewrite (attempts_transient env s b 1 1 _ p2 e2) by (assumption || lia).
  rewrite (attempts_success env s b 0 2 _ p3 result) by (assumption || lia).
  eexists. split; [reflexivity|]. do 2 (split; [reflexivity|]).
  split; [|repeat split].
  repeat constructor; eapply callMatches_optionsOf; eassumption.
Qed.

Lemma generate_retries_until_success_witness :
  exists run,
    handleGenerate Samples.flakyService (ui Samples.imageSession) = Some run /\
    renderCalls run
    = [(Samples.rex, optionsOf (ui Samples.imageSession)
                       (Some (mkImagePayload "cG9zZQ==" "image/jpeg")));
       (Samples.rex, optionsOf (ui Samples.imageSession)
                       (Some (mkImagePayload "cG9zZQ==" "image/jpeg")));
       (Samples.rex, optionsOf (ui Samples.imageSession)
                       (Some (mkImagePayload "cG9zZQ==" "image/jpeg")))] /\
    length (renderCalls run) = 3 /\
    Forall (callMatches (ui Samples.imageSession)) (renderCalls run) /\
    generatedImage (state run) = Some ("data:image/png;base64," +:+ "aW1n") /\
    isLoading (state run) = false /\
    error (state run) = Some (transientMessage 1 (message_of OtherValue)).
Proof.
  apply (proj2 (generate_retries_until_success Samples.flakyService
                  (ui Samples.imageSession))
           Samples.rex
           (Some (mkImagePayload "cG9zZQ==" "image/jpeg"))
           (Some (mkImagePayload "cG9zZQ==" "image/jpeg"))
           (Some (mkImagePayload "cG9zZQ==" "image/jpeg"))
           (ErrorObject "fetch failed") OtherValue "aW1n");
    vm_compute; reflexivity || discriminate.
Defined.

(** C4: when the first render call a generation makes fails with a
    message that carries one of the three fatal signals, that call is the
    only one made, no image is stored, and the error shown is the one of
    the first signal that matches. *)
Theorem fatal_error_stops_generation (env : RenderEnv) (s : AppState)
    (b : ImagePayload) (p1 : option ImagePayload) (err : thrown) :
  baseImage s = Some b -> poseDescription s <> "" ->
  poseImagePayloadOf env s 0 = Fulfilled p1 ->
  render env 0 b (optionsOf s p1) = Rejected err ->
  isFatal (message_of err) = true ->
  exists run,
    handleGenerate env s = Some run /\
    renderCalls run = [(b, optionsOf s p1)] /\
    length (renderCalls run) = 1 /\
    callMatches s (b, optionsOf s p1) /\
    generatedImage (state run) = None /\
    isLoading (state run) = false /\
    (includes (message_of err) authSignal = true ->
     error (state run) = Some authMessage) /\
    (includes (message_of err) authSignal = false ->
     includes (message_of err) poseSignal = true ->
     error (state run) = Some poseMessage) /\
    (includes (message_of err) authSignal = false ->
     includes (message_of err) poseSignal = false ->
     error (state run) = Some peopleMessage).
Proof.
  intros Hbase Hdescription Hp1 Hfirst Hfatal.
  rewrite (handleGenerate_guarded env s b Hbase Hdescription).
  rewrite (attempts_fatal env s b 2 0 _ p1 err) by (assumption || lia).
  eexists. split; [reflexivity|].
  do 2 (split; [reflexivity|]).
  split; [eapply callMatches_optionsOf; eassumption|]. cbn.
  do 2 (split; [reflexivity|]).
  unfold isFatal in Hfatal. unfold classifyError.
  split; [|split].
  - intros ->. reflexivity.
  - intros -> ->. reflexivity.
  - intros Hauth Hpose. rewrite Hauth, Hpose in *. simpl in Hfatal.
    rewrite Hfatal. reflexivity.
Qed.

Lemma fatal_error_stops_generation_witness :
  exists run,
    handleGenerate Samples.refusingService (ui Samples.imageSession) = Some run /\
    renderCalls run
    = [(Samples.rex, optionsOf (ui Samples.imageSession)
                       (Some (mkImagePayload "cG9zZQ==" "image/jpeg")))] /\
    length (renderCalls run) = 1 /\
    callMatches (ui Samples.imageSession)
      (Samples.rex, optionsOf (ui Samples.imageSession)
                      (Some (mkImagePayload "cG9zZQ==" "image/jpeg"))) /\
    generatedImage (state run) = None /\
    isLoading (state run) = false /\
    (includes (message_of GeminiService.poseDetectionFailedError) authSignal = true ->
     error (state run) = Some authMessage) /\
    (includes (message_of GeminiService.poseDetectionFailedError) authSignal = false ->
     includes (message_of GeminiService.poseDetectionFailedError) poseSignal = true ->
     error (state run) = Some poseMessage) /\
    (includes (message_of GeminiService.poseDetectionFailedError) authSignal = false ->
     includes (message_of GeminiService.poseDetectionFailedError) poseSignal = false ->
     error (state run) = Some peopleMessage).
Proof.
  apply (fatal_error_stops_generation Samples.refusingService
           (ui Samples.imageSession) Samples.rex
           (Some (mkImagePayload "cG9zZQ==" "image/jpeg"))
           GeminiService.poseDetectionFailedError);
    vm_compute; reflexivity || discriminate.
Defined.

(** The same through the service: the model answers with the text of the
    pose-detection signal, and the generation stops after one call. *)
Example refused_by_the_model :
  exists run,
    handleGenerate Samples.refusingService (ui Samples.imageSession) = Some run /\
    length (renderCalls run) = 1 /\
    error (state run) = Some poseMessage /\
    generatedImage (state run) = None.
Proof. eexists. split; [vm_compute; reflexivity|]. repeat split. Qed.

(** C6, as stated, fails on a description of one space: it is blank, the
    identity is present, and the confirmation calls the render capability
    and stores its result. *)
Lemma generate_runs_on_space_description :
  baseImage Samples.spaceDescription = Some Samples.rex /\
  poseDescription Samples.spaceDescription = " " /\
  blank (poseDescription Samples.spaceDescription) = true /\
  isGenerateDisabled Samples.spaceDescription = false /\
  exists run,
    handleGenerate Samples.alwaysRenders Samples.spaceDescription = Some run /\
    length (renderCalls run) = 1 /\
    generatedImage (state run) = Some "data:image/png;base64,aW1n" /\
    state run <> Samples.spaceDescription.
Proof.
  do 4 (split; [vm_compute; reflexivity|]).
  eexists. split; [vm_compute; reflexivity|].
  split; [reflexivity|]. split; [reflexivity|].
  vm_compute. discriminate.
Qed.

(** C6 (amended): confirming the generation when the base identity is
    absent or the pose description is the empty string is a no-op: no
    render call is made and the state is unchanged. *)
Theorem generate_noop_without_input (env : RenderEnv) (s : AppState) :
  baseImage s = None \/ poseDescription s = "" ->
  handleGenerate env s = Some (mkGenRun s []).
Proof.
  intros [Hbase | Hdescription]; unfold handleGenerate.
  - now rewrite Hbase.
  - rewrite Hdescription. now destruct (baseImage s).
Qed.

Lemma generate_noop_without_input_witness :
  handleGenerate Samples.alwaysRenders (initialState (Some Samples.rex))
  = Some (mkGenRun (initialState (Some Samples.rex)) []).
Proof.
  apply (generate_noop_without_input Samples.alwaysRenders
           (initialState (Some Samples.rex))).
  right. reflexivity.
Defined.

End Generate.

(** ** More on the retry loop *)

Section GenerateInvariants.

Variable env : RenderEnv.
Variable cap : AppState.
Variable b : ImagePayload.

(** What holds before the loop and is kept by a logged call, a stored
    error and a stored image holds after it. *)
Lemma attempts_invariant (P : GenRun -> Prop) :
  (forall run i payload,
     poseImagePayloadOf env cap i = Fulfilled payload ->
     P run -> P (run |> logRender b (optionsOf cap payload))) ->
  (forall run shown, P run -> P (run |> onState (setError (Some shown)))) ->
  (forall run url, P run -> P (run |> onState (setGeneratedImage (Some url)))) ->
  forall (fuel i : nat) (success : bool) (run run' : GenRun),
    P run -> attempts fuel env cap b i success run = Some run' -> P run'.
Proof.
  intros Hlog Herror Himage.
  induction fuel as [|fuel IH]; intros i success run run' HP.
  - simpl. destruct ((i <? 3) && negb success); [discriminate|].
    now intros [= <-].
  - cbn [attempts]. destruct ((i <? 3) && negb success); [|now intros [= <-]].
    destruct (poseImagePayloadOf env cap i) as [payload|err] eqn:Hpayload.
    + destruct (render env _ b _) as [result|err].
      * apply IH. apply Himage. now apply (Hlog _ i).
      * destruct (classifyError i (message_of err)) as [shown [|]].
        -- intros [= <-]. apply Herror. now apply (Hlog _ i).
        -- apply IH. apply Herror. now apply (Hlog _ i).
    + destruct (classifyError i (message_of err)) as [shown [|]].
      * intros [= <-]. now apply Herror.
      * apply IH. now apply Herror.
Qed.

(** A round that runs leaves an image or an error behind. *)
Lemma attempts_outcome (fuel i : nat) (run run' : GenRun) :
  i < 3 ->
  attempts fuel env cap b i false run = Some run' ->
  generatedImage (state run') <> None \/ error (state run') <> None.
Proof.
  intros Hi%Nat.ltb_lt.
  pose (Q := fun r : GenRun =>
          generatedImage (state r) <> None \/ error (state r) <> None).
  assert (forall fuel' j success r r',
            Q r -> attempts fuel' env cap b j success r = Some r' -> Q r') as Hkeep.
  { apply attempts_invariant; unfold Q; simpl.
    - intros r _ _ _ H. exact H.
    - intros r shown _. now right.
    - intros r url _. now left. }
  destruct fuel as [|fuel]; cbn [attempts]; rewrite Hi; cbn [andb negb];
    [discriminate|].
  destruct (poseImagePayloadOf env cap i) as [payload|err].
  - destruct (render env _ b _) as [result|err].
    + apply Hkeep. unfold Q. simpl. now left.
    + destruct (classifyError i (message_of err)) as [shown [|]].
      * intros [= <-]. simpl. now right.
      * apply Hkeep. unfold Q. simpl. now right.
  - destruct (classifyError i (message_of err)) as [shown [|]].
    + intros [= <-]. simpl. now right.
    + apply Hkeep. unfold Q. simpl. now right.
Qed.

End GenerateInvariants.

Section GenerateMore.

(** X1: a generation changes nothing but the generated image, the loading
    flag and the error: the identity, the pose source, the description and
    the editor are after the run what they were before it, whatever the
    render capability answers. *)
Theorem generate_keeps_source_fields (env : RenderEnv) (s : AppState) :
  exists run, handleGenerate env s = Some run /\
              sourceFields (state run) = sourceFields s.
Proof.
  destruct (handleGenerate_total env s) as (run & Hrun & _).
  exists run. split; [exact Hrun|].
  unfold handleGenerate in Hrun.
  destruct (baseImage s) as [b|] eqn:Hbase; [|injection Hrun as Hrun; now subst run].
  destruct (truthy (poseDescription s)); [|injection Hrun as Hrun; now subst run].
  cbn [negb] in Hrun.
  destruct (attempts 3 env s b 0 false _) as [run0|] eqn:Hloop; [|discriminate].
  injection Hrun as Hrun; subst run.
  revert Hloop.
  apply (attempts_invariant env s b
           (fun r => sourceFields (state r |> setIsLoading false) = sourceFields s)).
  - intros r i payload _ H. exact H.
  - intros r shown H. exact H.
  - intros r url H. exact H.
  - unfold sourceFields. simpl. now rewrite Hbase.
Qed.

(** X2: once past its guard (an identity, a description that is not
    empty) a generation ends with the loading flag down and with an image
    or an error in place: it never ends silently. *)
Theorem generate_ends_with_image_or_error (env : RenderEnv) (s : AppState) :
  baseImage s <> None -> poseDescription s <> "" ->
  exists run, handleGenerate env s = Some run /\
              isLoading (state run) = false /\
              (generatedImage (state run) <> None \/ error (state run) <> None).
Proof.
  intros Hbase Hdescription.
  destruct (baseImage s) as [b|] eqn:Hb; [clear Hbase | now destruct Hbase].
  destruct (handleGenerate_total env s) as (run & Hrun & _).
  exists run. split; [exact Hrun|].
  rewrite (handleGenerate_guarded env s b Hb Hdescription) in Hrun.
  destruct (attempts 3 env s b 0 false _) as [run0|] eqn:Hloop; [|discriminate].
  injection Hrun as Hrun; subst run. split; [reflexivity|].
  apply attempts_outcome in Hloop; [exact Hloop | lia].
Qed.

Lemma generate_ends_with_image_or_error_witness :
  exists run, handleGenerate Samples.neverRenders (ui Samples.describedSession) = Some run /\
              isLoading (state run) = false /\
              (generatedImage (state run) <> None \/ error (state run) <> None).
Proof.
  apply (generate_ends_with_image_or_error Samples.neverRenders
           (ui Samples.describedSession)).
  - vm_compute. discriminate.
  - vm_compute. discriminate.
Defined.

(** X3: every render call of one generation is made with the stored
    identity and with the description and the mode the run started with; in
    text mode no call carries a pose image, even when one is in the state. *)
Theorem generate_calls_share_identity (env : RenderEnv) (s : AppState) :
  exists run, handleGenerate env s = Some run /\
              Forall (callMatches s) (renderCalls run).
Proof.
  destruct (handleGenerate_total env s) as (run & Hrun & _).
  exists run. split; [exact Hrun|].
  unfold handleGenerate in Hrun.
  destruct (baseImage s) as [b|] eqn:Hbase; [|injection Hrun as Hrun; subst run; constructor].
  destruct (truthy (poseDescription s)); [|injection Hrun as Hrun; subst run; constructor].
  cbn [negb] in Hrun.
  destruct (attempts 3 env s b 0 false _) as [run0|] eqn:Hloop; [|discriminate].
  injection Hrun as Hrun; subst run. simpl.
  revert Hloop.
  apply (attempts_invariant env s b (fun r => Forall (callMatches s) (renderCalls r))).
  - intros r i payload Hpayload H. simpl. constructor; [|exact H].
    unfold callMatches, optionsOf. simpl.
    split; [exact Hbase|]. split; [reflexivity|]. split.
    + intros ->. reflexivity.
    + intros Hmode. unfold poseImagePayloadOf in Hpayload.
      destruct (poseSourceMode s) as [[|]|]; try (now destruct Hmode);
        injection Hpayload as <-; split; reflexivity.
  - intros r shown H. exact H.
  - intros r url H. exact H.
  - constructor.
Qed.

(** X4: when the three calls a generation makes all fail with errors
    that carry no fatal signal (the pose image payload being available each
    time), exactly these three calls are made, no image is stored, and the
    error shown is the one of the third attempt only. *)
Theorem generate_exhausts_three_attempts (env : RenderEnv) (s : AppState)
    (b : ImagePayload) (p1 p2 p3 : option ImagePayload) (e1 e2 e3 : thrown) :
  baseImage s = Some b -> poseDescription s <> "" ->
  poseImagePayloadOf env s 0 = Fulfilled p1 ->
  render env 0 b (optionsOf s p1) = Rejected e1 -> isFatal (message_of e1) = false ->
  poseImagePayloadOf env s 1 = Fulfilled p2 ->
  render env 1 b (optionsOf s p2) = Rejected e2 -> isFatal (message_of e2) = false ->
  poseImagePayloadOf env s 2 = Fulfilled p3 ->
  render env 2 b (optionsOf s p3) = Rejected e3 -> isFatal (message_of e3) = false ->
  exists run,
    handleGenerate env s = Some run /\
    renderCalls run = [(b, optionsOf s p3); (b, optionsOf s p2); (b, optionsOf s p1)] /\
    length (renderCalls run) = 3 /\
    Forall (callMatches s) (renderCalls run) /\
    generatedImage (state run) = None /\
    isLoading (state run) = false /\
    error (state run) = Some (transientMessage 2 (message_of e3)).
Proof.
  intros Hbase Hdescription Hp1 Hfirst Ht1 Hp2 Hsecond Ht2 Hp3 Hthird Ht3.
  rewrite (handleGenerate_guarded env s b Hbase Hdescription).
  rewrite (attempts_transient env s b 2 0 _ p1 e1) by (assumption || lia).
  rewrite (attempts_transient env s b 1 1 _ p2 e2) by (assumption || lia).
  rewrite (attempts_transient env s b 0 2 _ p3 e3) by (assumption || lia).
  rewrite attempts_stop by reflexivity.
  eexists. split; [reflexivity|]. do 2 (split; [reflexivity|]).
  split; [|repeat split].
  repeat constructor; eapply callMatches_optionsOf; eassumption.
Qed.

Lemma generate_exhausts_three_attempts_witness :
  exists run,
    handleGenerate Samples.offlineService (ui Samples.imageSession) = Some run /\
    renderCalls run
    = [(Samples.rex, optionsOf (ui Samples.imageSession)
                       (Some (mkImagePayload "cG9zZQ==" "image/jpeg")));
       (Samples.rex, optionsOf (ui Samples.imageSession)
                       (Some (mkImagePayload "cG9zZQ==" "image/jpeg")));
       (Samples.rex, optionsOf (ui Samples.imageSession)
                       (Some (mkImagePayload "cG9zZQ==" "image/jpeg")))] /\
    length (renderCalls run) = 3 /\
    Forall (callMatches (ui Samples.imageSession)) (renderCalls run) /\
    generatedImage (state run) = None /\
    isLoading (state run) = false /\
    error (state run)
    = Some (transientMessage 2 (message_of (ErrorObject "fetch failed"))).
Proof.
  apply (generate_exhausts_three_attempts Samples.offlineService
           (ui Samples.imageSession) Samples.rex
           (Some (mkImagePayload "cG9zZQ==" "image/jpeg"))
           (Some (mkImagePayload "cG9zZQ==" "image/jpeg"))
           (Some (mkImagePayload "cG9zZQ==" "image/jpeg"))
           (ErrorObject "fetch failed") (ErrorObject "fetch failed")
           (ErrorObject "fetch failed"));
    vm_compute; reflexivity || discriminate.
Defined.

(** X5: when the first render call a generation makes succeeds it is the
    only one: its image is stored, no error is shown, and the download
    offers that image under its fixed name. *)
Theorem generate_first_success (env : RenderEnv) (s : AppState)
    (b : ImagePayload) (p1 : option ImagePayload) (result : string) :
  baseImage s = Some b -> poseDescription s <> "" ->
  poseImagePayloadOf env s 0 = Fulfilled p1 ->
  render env 0 b (optionsOf s p1) = Fulfilled result ->
  exists run,
    handleGenerate env s = Some run /\
    renderCalls run = [(b, optionsOf s p1)] /\
    length (renderCalls run) = 1 /\
    callMatches s (b, optionsOf s p1) /\
    generatedImage (state run) = Some ("data:image/png;base64," +:+ result) /\
    isLoading (state run) = false /\
    error (state run) = None /\
    handleDownload (state run)
    = Some (mkDownload ("data:image/png;base64," +:+ result) "rex-new-pose.png").
Proof.
  intros Hbase Hdescription Hp1 Hfirst.
  rewrite (handleGenerate_guarded env s b Hbase Hdescription).
  rewrite (attempts_success env s b 2 0 _ p1 result) by (assumption || lia).
  eexists. split; [reflexivity|]. do 2 (split; [reflexivity|]).
  split; [eapply callMatches_optionsOf; eassumption|]. repeat split.
Qed.

Lemma generate_first_success_witness :
  exists run,
    handleGenerate Samples.paintingService (ui Samples.imageSession) = Some run /\
    renderCalls run
    = [(Samples.rex, optionsOf (ui Samples.imageSession)
                       (Some (mkImagePayload "cG9zZQ==" "image/jpeg")))] /\
    length (renderCalls run) = 1 /\
    callMatches (ui Samples.imageSession)
      (Samples.rex, optionsOf (ui Samples.imageSession)
                      (Some (mkImagePayload "cG9zZQ==" "image/jpeg"))) /\
    generatedImage (state run) = Some ("data:image/png;base64," +:+ "aW1n") /\
    isLoading (state run) = false /\
    error (state run) = None /\
    handleDownload (state run)
    = Some (mkDownload ("data:image/png;base64," +:+ "aW1n") "rex-new-pose.png").
Proof.
  apply (generate_first_success Samples.paintingService (ui Samples.imageSession)
           Samples.rex (Some (mkImagePayload "cG9zZQ==" "image/jpeg")) "aW1n");
    vm_compute; reflexivity || discriminate.
Defined.

End GenerateMore.

(** ** More on the service *)

Section TrimFacts.

Lemma trimEnd_idempotent (s : string) : trimEnd (trimEnd s) = trimEnd s.
Proof.
  induction s as [|a s IH]; [reflexivity|].
  cbn [trimEnd]. destruct (trimEnd s) as [|c t] eqn:E.
  - destruct (isWhiteSpace a) eqn:Ha; [reflexivity|].
    cbn [trimEnd]. now rewrite Ha.
  - cbn [trimEnd]. cbn [trimEnd] in IH. now rewrite IH.
Qed.

Lemma trimStart_head (s : string) (a : ascii) (rest : string) :
  trimStart s = String a rest -> isWhiteSpace a = false.
Proof.
  induction s as [|c s IH]; simpl; [discriminate|].
  destruct (isWhiteSpace c) eqn:Hc; [exact IH|].
  now intros [= <- _].
Qed.

Lemma trimEnd_head (a : ascii) (s : string) :
  isWhiteSpace a = false -> exists rest, trimEnd (String a s) = String a rest.
Proof.
  intros Ha. cbn [trimEnd]. destruct (trimEnd s); [rewrite Ha|]; eauto.
Qed.

(** A trimmed string has nothing left to trim. *)
Lemma trim_idempotent (s : string) : trim (trim s) = trim s.
Proof.
  unfold trim. destruct (trimStart s) as [|a rest] eqn:E; [reflexivity|].
  destruct (trimEnd_head a rest (trimStart_head _ _ _ E)) as [rest' Hrest].
  assert (trimStart (trimEnd (String a rest)) = trimEnd (String a rest)) as ->.
  { rewrite Hrest. simpl. now rewrite (trimStart_head _ _ _ E). }
  apply trimEnd_idempotent.
Qed.

Lemma trim_truthy (s : string) : truthy (trim s) = true -> truthy s = true.
Proof. destruct s; [discriminate | reflexivity]. Qed.

End TrimFacts.

Section Service.

Import GeminiService.

Variable prompts : Mode -> string -> string.

(** X6: a description returned by the describe operation has no white
    space left at either end: trimming it again changes nothing. *)
Theorem description_is_trimmed (be : Backend) (img : option ImagePayload)
    (txt : option string) (description : string) :
  generatePoseDescription be img txt = Fulfilled description ->
  trim description = description.
Proof.
  unfold generatePoseDescription.
  destruct (getAiClient be); [|discriminate]. simpl.
  destruct (describeParts img txt) as [parts|]; [|discriminate]. simpl.
  destruct (generateContent be "gemini-2.5-flash" parts) as [response|];
    [|discriminate]. simpl.
  destruct (responseText response); [|discriminate].
  intros [= <-]. apply trim_idempotent.
Qed.

Lemma description_is_trimmed_witness :
  trim "A person standing." = "A person standing.".
Proof.
  apply (description_is_trimmed Samples.keyedBackend None (Some "stand")).
  vm_compute. reflexivity.
Defined.

(** Without a configured key (absent or empty) both operations of the
    service reject with the key error, whatever they are given and
    whatever the model would answer. *)
Lemma missing_key_rejects (be : Backend) :
  API_KEY be = None \/ API_KEY be = Some "" ->
  (forall img txt,
     generatePoseDescription be img txt
     = Rejected (ErrorObject "API_KEY environment variable not set.")) /\
  (forall b o,
     generatePose prompts be b o
     = Rejected (ErrorObject "API_KEY environment variable not set.")).
Proof.
  intros Hkey.
  assert (getAiClient be = Rejected (ErrorObject "API_KEY environment variable not set."))
    as Hclient by (unfold getAiClient; destruct Hkey as [-> | ->]; reflexivity).
  split; intros; [unfold generatePoseDescription | unfold generatePose];
    now rewrite Hclient.
Qed.

(** With a key, [generatePose] in image mode without a pose image rejects
    before it asks the model. *)
Lemma pose_image_required_before_request (be : Backend) (b : ImagePayload)
    (o : GenerateOptions) :
  getAiClient be = Fulfilled tt ->
  mode o = image -> poseImage o = None ->
  generatePose prompts be b o = Rejected poseImageRequiredError.
Proof.
  intros Hkey Hmode Hpose. unfold generatePose, poseParts.
  now rewrite Hkey, Hmode, Hpose.
Qed.

Lemma textErrorSignal_pose (t : string) (rest : list Part) :
  includes (trim t) "POSE_DETECTION_FAILED" = true ->
  textErrorSignal (Some (TextPart t :: rest)) = Rejected poseDetectionFailedError.
Proof.
  intros Hpose. simpl.
  assert (truthy t = true) as ->
    by (apply trim_truthy; destruct (trim t); [discriminate | reflexivity]).
  now rewrite Hpose.
Qed.

Lemma textErrorSignal_people (t : string) (rest : list Part) :
  includes (trim t) "POSE_DETECTION_FAILED" = false ->
  includes (trim t) "MULTIPLE_PEOPLE_DETECTED" = true ->
  textErrorSignal (Some (TextPart t :: rest)) = Rejected multiplePeopleDetectedError.
Proof.
  intros Hpose Hpeople. simpl.
  assert (truthy t = true) as ->
    by (apply trim_truthy; destruct (trim t); [discriminate | reflexivity]).
  now rewrite Hpose, Hpeople.
Qed.

(** X7: the answer of the model is read from its first part: a first
    part whose text holds the pose-detection signal rejects with the
    pose-detection error, and one that holds only the multiple-people
    signal with that error, whatever follows, images included; a first part
    that is an image is returned, whatever text follows. *)
Theorem generatePose_reads_first_part (be : Backend) (b : ImagePayload)
    (o : GenerateOptions) (parts : list Part) (response : Response) (rest : list Part) :
  getAiClient be = Fulfilled tt ->
  poseParts prompts b o = Fulfilled parts ->
  generateContent be "gemini-2.5-flash-image" parts = Fulfilled response ->
  (forall t, candidateParts response = Some (TextPart t :: rest) ->
     includes (trim t) "POSE_DETECTION_FAILED" = true ->
     generatePose prompts be b o = Rejected poseDetectionFailedError) /\
  (forall t, candidateParts response = Some (TextPart t :: rest) ->
     includes (trim t) "POSE_DETECTION_FAILED" = false ->
     includes (trim t) "MULTIPLE_PEOPLE_DETECTED" = true ->
     generatePose prompts be b o = Rejected multiplePeopleDetectedError) /\
  (forall mime bytes, candidateParts response = Some (InlineData mime bytes :: rest) ->
     generatePose prompts be b o = Fulfilled bytes).
Proof.
  intros Hkey Hparts Hresponse. unfold generatePose.
  rewrite Hkey. simpl. rewrite Hparts. simpl. rewrite Hresponse. simpl.
  split; [|split].
  - intros t -> Hpose. now rewrite textErrorSignal_pose.
  - intros t -> Hpose Hpeople. now rewrite textErrorSignal_people.
  - intros mime bytes ->. reflexivity.
Qed.

(** X8: an image returned by [generatePose] is inline data of the
    answer the model gave to this request: the first such part. *)
Theorem generatePose_returns_model_image (be : Backend) (b : ImagePayload)
    (o : GenerateOptions) (bytes : string) :
  generatePose prompts be b o = Fulfilled bytes ->
  exists parts response answer,
    poseParts prompts b o = Fulfilled parts /\
    generateContent be "gemini-2.5-flash-image" parts = Fulfilled response /\
    candidateParts response = Some answer /\
    firstInlineData answer = Some bytes /\
    exists mime, InlineData mime bytes ∈ answer.
Proof.
  unfold generatePose.
  destruct (getAiClient be); [|discriminate]. simpl.
  destruct (poseParts prompts b o) as [parts|]; [|discriminate]. simpl.
  destruct (generateContent be "gemini-2.5-flash-image" parts) as [response|]
    eqn:Hresponse; [|discriminate]. simpl.
  destruct (textErrorSignal (candidateParts response)); [|discriminate]. simpl.
  destruct (candidateParts response) as [answer|] eqn:Hanswer; [|discriminate].
  destruct (firstInlineData answer) as [found|] eqn:Hfound; [|discriminate].
  intros [= <-]. exists parts, response, answer.
  do 4 (split; [assumption || reflexivity|]).
  clear -Hfound. induction answer as [|[mime d | t] answer IH]; [discriminate| |].
  - injection Hfound as ->. exists mime. constructor.
  - destruct (IH Hfound) as [mime Hin]. exists mime. now constructor.
Qed.

End Service.

Section ServiceWitnesses.

Import GeminiService.

Lemma generatePose_reads_first_part_witness :
  generatePose Samples.echo Samples.crowdedBackend Samples.rex
    (mkGenerateOptions text None "A person standing.")
  = Rejected multiplePeopleDetectedError.
Proof.
  refine (proj1 (proj2 (generatePose_reads_first_part Samples.echo
            Samples.crowdedBackend Samples.rex
            (mkGenerateOptions text None "A person standing.")
            [InlineData "image/png" "UkVY"; TextPart "A person standing."]
            Samples.crowdedAnswer [InlineData "image/png" "aW1n"]
            eq_refl eq_refl eq_refl))
          "MULTIPLE_PEOPLE_DETECTED" eq_refl _ _);
    vm_compute; reflexivity.
Defined.

Lemma generatePose_returns_model_image_witness :
  exists parts response answer,
    poseParts Samples.echo Samples.rex (mkGenerateOptions text None "A person standing.")
    = Fulfilled parts /\
    generateContent Samples.paintingBackend "gemini-2.5-flash-image" parts
    = Fulfilled response /\
    candidateParts response = Some answer /\
    firstInlineData answer = Some "aW1n" /\
    exists mime, InlineData mime "aW1n" ∈ answer.
Proof.
  apply (generatePose_returns_model_image Samples.echo Samples.paintingBackend
           Samples.rex (mkGenerateOptions text None "A person standing.") "aW1n").
  vm_compute. reflexivity.
Defined.

End ServiceWitnesses.

(** ** The service behind the retry loop *)

Section ServiceBehindLoop.

Variable prompts : Mode -> string -> string.
Variable reader : nat -> File -> settled string.
Variable backend : nat -> GeminiService.Backend.

Let env : RenderEnv := serviceEnv prompts reader backend.

(** X9: without a configured key every attempt fails before the model is
    asked, the failure is taken for a transient one, and the generation
    spends its three attempts on it; the error shown is the key error of
    the third attempt, not the invalid-key message. *)
Theorem keyless_generation_is_retried (s : AppState) (b : ImagePayload) :
  baseImage s = Some b -> poseDescription s <> "" ->
  (forall i, i < 3 -> exists payload, poseImagePayloadOf env s i = Fulfilled payload) ->
  (forall n, GeminiService.API_KEY (backend n) = None
             \/ GeminiService.API_KEY (backend n) = Some "") ->
  exists run,
    handleGenerate env s = Some run /\
    length (renderCalls run) = 3 /\
    generatedImage (state run) = None /\
    error (state run)
    = Some "Failed to generate image (attempt 3). API_KEY environment variable not set.".
Proof.
  intros Hbase Hdescription Hpayload Hkey.
  destruct (Hpayload 0) as [p0 Hp0]; [lia|].
  destruct (Hpayload 1) as [p1 Hp1]; [lia|].
  destruct (Hpayload 2) as [p2 Hp2]; [lia|].
  assert (forall n o, render env n b o
            = Rejected (ErrorObject "API_KEY environment variable not set."))
    as Hrender by (intros n o; apply (missing_key_rejects prompts), Hkey).
  rewrite (handleGenerate_guarded env s b Hbase Hdescription).
  rewrite (attempts_transient env s b 2 0 _ p0 _ ltac:(lia) Hp0 (Hrender _ _) eq_refl).
  rewrite (attempts_transient env s b 1 1 _ p1 _ ltac:(lia) Hp1 (Hrender _ _) eq_refl).
  rewrite (attempts_transient env s b 0 2 _ p2 _ ltac:(lia) Hp2 (Hrender _ _) eq_refl).
  rewrite attempts_stop by reflexivity.
  eexists. split; [reflexivity|]. repeat split.
Qed.

(** X10: a generation confirmed in image mode without a pose image never
    reaches the model: each attempt is rejected by the service for the
    missing image, and the three attempts are spent on it. *)
Theorem imageless_generation_is_retried (s : AppState) (b : ImagePayload) :
  baseImage s = Some b -> poseDescription s <> "" ->
  poseSourceMode s = Some image -> poseImage s = None ->
  (forall n, GeminiService.getAiClient (backend n) = Fulfilled tt) ->
  exists run,
    handleGenerate env s = Some run /\
    length (renderCalls run) = 3 /\
    generatedImage (state run) = None /\
    error (state run)
    = Some "Failed to generate image (attempt 3). A pose image is required when using image mode.".
Proof.
  intros Hbase Hdescription Hmode Hpose Hkey.
  assert (forall i, poseImagePayloadOf env s i = Fulfilled None) as Hpayload
    by (intros i; unfold poseImagePayloadOf; now rewrite Hmode, Hpose).
  assert (forall n, render env n b (optionsOf s None)
            = Rejected GeminiService.poseImageRequiredError) as Hrender.
  { intros n. apply (pose_image_required_before_request prompts); [apply Hkey| |].
    - unfold optionsOf. simpl. now rewrite Hmode.
    - reflexivity. }
  rewrite (handleGenerate_guarded env s b Hbase Hdescription).
  rewrite (attempts_transient env s b 2 0 _ None _ ltac:(lia) (Hpayload _) (Hrender _) eq_refl).
  rewrite (attempts_transient env s b 1 1 _ None _ ltac:(lia) (Hpayload _) (Hrender _) eq_refl).
  rewrite (attempts_transient env s b 0 2 _ None _ ltac:(lia) (Hpayload _) (Hrender _) eq_refl).
  rewrite attempts_stop by reflexivity.
  eexists. split; [reflexivity|]. repeat split.
Qed.


End ServiceBehindLoop.

Section ServiceBehindLoopWitnesses.

Lemma keyless_generation_is_retried_witness :
  exists run,
    handleGenerate (serviceEnv Samples.echo Samples.reads (fun _ => Samples.keylessBackend))
      (ui Samples.imageSession) = Some run /\
    length (renderCalls run) = 3 /\
    generatedImage (state run) = None /\
    error (state run)
    = Some "Failed to generate image (attempt 3). API_KEY environment variable not set.".
Proof.
  apply (keyless_generation_is_retried Samples.echo Samples.reads
           (fun _ => Samples.keylessBackend) (ui Samples.imageSession) Samples.rex).
  - vm_compute. reflexivity.
  - vm_compute. discriminate.
  - intros i _. eexists. vm_compute. reflexivity.
  - intros n. left. reflexivity.
Defined.

Lemma imageless_generation_is_retried_witness :
  exists run,
    handleGenerate (serviceEnv Samples.echo Samples.reads (fun _ => Samples.paintingBackend))
      (ui Samples.lateTextInImageMode) = Some run /\
    length (renderCalls run) = 3 /\
    generatedImage (state run) = None /\
    error (state run)
    = Some "Failed to generate image (attempt 3). A pose image is required when using image mode.".
Proof.
  apply (imageless_generation_is_retried Samples.echo Samples.reads
           (fun _ => Samples.paintingBackend) (ui Samples.lateTextInImageMode)
           Samples.rex).
  - vm_compute. reflexivity.
  - vm_compute. discriminate.
  - vm_compute. reflexivity.
  - vm_compute. reflexivity.
  - intros n. reflexivity.
Defined.


End ServiceBehindLoopWitnesses.

(** ** More on the description effect *)

Section NormalizerMore.

Lemma getPoseDescription_keeps_form (w : World) :
  let w' := getPoseDescription w in
  poseImage (ui w') = poseImage (ui w) /\ prompt (ui w') = prompt (ui w) /\
  poseSourceMode (ui w') = poseSourceMode (ui w) /\
  baseImage (ui w') = baseImage (ui w) /\
  generatedImage (ui w') = generatedImage (ui w) /\
  isLoading (ui w') = isLoading (ui w).
Proof.
  cbv zeta. unfold getPoseDescription.
  destruct (poseSourceMode (ui w)) as [m|] eqn:Hmode; [|now rewrite Hmode].
  destruct (bool_decide (m = text) && truthy (trim (debouncedPrompt (ui w))));
    [simpl; now rewrite Hmode|].
  destruct m, (debouncedPoseImage (ui w)); simpl; now rewrite Hmode.
Qed.

Lemma settle_keeps_form (id : nat) (r : settled string) (w : World) :
  let w' := settle id r w in
  poseImage (ui w') = poseImage (ui w) /\ prompt (ui w') = prompt (ui w) /\
  poseSourceMode (ui w') = poseSourceMode (ui w) /\
  baseImage (ui w') = baseImage (ui w) /\
  generatedImage (ui w') = generatedImage (ui w) /\
  isLoading (ui w') = isLoading (ui w).
Proof.
  cbv zeta. unfold settle.
  destruct (inflight w !! id) as [[img | branch img txt]|]; [destruct r | destruct r |];
    repeat split.
Qed.

Lemma rerender_keeps_form (before : AppState) (w : World) :
  let w' := rerender before w in
  poseImage (ui w') = poseImage (ui w) /\ prompt (ui w') = prompt (ui w) /\
  poseSourceMode (ui w') = poseSourceMode (ui w) /\
  baseImage (ui w') = baseImage (ui w) /\
  generatedImage (ui w') = generatedImage (ui w) /\
  isLoading (ui w') = isLoading (ui w).
Proof.
  cbv zeta. unfold rerender. destruct (decide _); [repeat split|].
  apply getPoseDescription_keeps_form.
Qed.

(** X12: typing in the prompt, editing the description and uploading a
    pose image start no Describe call and no promise by themselves, and
    leave the description as the handler left it: the effect waits for the
    debounced copies. *)
Theorem edits_start_no_describe (w : World) (e : Event) :
  isEdit e = true ->
  let w' := step w e in
  describeCalls w' = describeCalls w /\ inflight w' = inflight w /\
  nextTask w' = nextTask w /\
  isPreviewLoading (ui w') = isPreviewLoading (ui w) /\
  effectDeps (ui w') = effectDeps (ui w).
Proof.
  intros Hedit. cbv zeta.
  destruct e; try discriminate; unfold step;
    rewrite rerender_same_deps by reflexivity; repeat split.
Qed.

Lemma edits_start_no_describe_witness :
  let w := Samples.describedSession in
  let w' := step w (PromptChange "stand on one leg") in
  describeCalls w' = describeCalls w /\ inflight w' = inflight w /\
  nextTask w' = nextTask w /\
  isPreviewLoading (ui w') = isPreviewLoading (ui w) /\
  effectDeps (ui w') = effectDeps (ui w).
Proof.
  apply (edits_start_no_describe Samples.describedSession
           (PromptChange "stand on one leg")).
  reflexivity.
Defined.

(** X13: choosing the text mode while the debounced prompt still holds a
    text that is not blank sends that text to Describe at once, although
    the handler has just emptied the prompt. *)
Theorem mode_switch_describes_debounced_text (w : World) :
  poseSourceMode (ui w) <> Some text ->
  trim (debouncedPrompt (ui w)) <> "" ->
  let w' := step w (PoseSourceChange text) in
  prompt (ui w') = "" /\
  describeCalls w' = (None, Some (debouncedPrompt (ui w))) :: describeCalls w /\
  inflight w' !! nextTask w
  = Some (DescribePending text None (Some (debouncedPrompt (ui w)))) /\
  isPreviewLoading (ui w') = true /\
  poseDescription (ui w') = "".
Proof.
  intros Hmode Htext%truthy_true_iff. cbv zeta. unfold step, rerender.
  destruct (decide _) as [Hsame|_].
  - exfalso. apply Hmode. unfold effectDeps in Hsame. simpl in Hsame. congruence.
  - unfold getPoseDescription. simpl. rewrite Htext. simpl.
    repeat split. apply lookup_insert_eq.
Qed.

Lemma mode_switch_describes_debounced_text_witness :
  let w := Samples.switchedToImage in
  let w' := step w (PoseSourceChange text) in
  prompt (ui w') = "" /\
  describeCalls w' = (None, Some (debouncedPrompt (ui w))) :: describeCalls w /\
  inflight w' !! nextTask w
  = Some (DescribePending text None (Some (debouncedPrompt (ui w)))) /\
  isPreviewLoading (ui w') = true /\
  poseDescription (ui w') = "".
Proof.
  apply (mode_switch_describes_debounced_text Samples.switchedToImage).
  - vm_compute. discriminate.
  - vm_compute. discriminate.
Defined.

(** X14: in the image branch the pose image is converted first: when the
    conversion fails no Describe call is made, the error carries the image
    prefix and the editor is hidden; when it succeeds Describe is called
    with the converted image and the type of the file, and no text. *)
Theorem image_branch_converts_first (w : World) (id : nat) (img : ImageFile) :
  inflight w !! id = Some (FileToBase64Pending img) ->
  (forall err,
     let w' := step w (Settle id (Rejected err)) in
     describeCalls w' = describeCalls w /\ inflight w' !! id = None /\
     error (ui w')
     = Some ("Could not generate pose description from image: " +:+ message_of err) /\
     showDescriptionEditor (ui w') = false /\ isPreviewLoading (ui w') = false /\
     poseDescription (ui w') = poseDescription (ui w)) /\
  (forall base64,
     let w' := step w (Settle id (Fulfilled base64)) in
     describeCalls w'
     = (Some (mkImagePayload base64 (type (file img))), None) :: describeCalls w /\
     inflight w' !! id
     = Some (DescribePending image (Some (mkImagePayload base64 (type (file img)))) None) /\
     ui w' = ui w).
Proof.
  intros Hid. split; intros ?; cbv zeta; rewrite step_Settle; unfold settle; rewrite Hid.
  - repeat split. apply lookup_delete_eq.
  - repeat split. apply lookup_insert_eq.
Qed.

Lemma image_branch_converts_first_witness :
  let w := run (initialWorld (Some Samples.rex))
             [PoseSourceChange image;
              PoseImageUpload Samples.posePhoto "blob:1"; DebouncedPoseImageUpdate] in
  let w' := step w (Settle 0 (Rejected (ErrorObject "unreadable"))) in
  describeCalls w' = describeCalls w /\ inflight w' !! 0 = None /\
  error (ui w')
  = Some ("Could not generate pose description from image: "
          +:+ message_of (ErrorObject "unreadable")) /\
  showDescriptionEditor (ui w') = false /\ isPreviewLoading (ui w') = false /\
  poseDescription (ui w') = poseDescription (ui w).
Proof.
  refine (proj1 (image_branch_converts_first
                   (run (initialWorld (Some Samples.rex))
                      [PoseSourceChange image;
                       PoseImageUpload Samples.posePhoto "blob:1";
                       DebouncedPoseImageUpdate])
                   0 (mkImageFile Samples.posePhoto "blob:1") _)
            (ErrorObject "unreadable")).
  vm_compute. reflexivity.
Defined.

(** X15: when two Describe calls are in flight and one resolves, the
    loading flag goes down although the other call is still awaited. *)
Theorem loading_flag_drops_early (w : World) (id other : nat) (r : settled string)
    (branch : Mode) (img : option ImagePayload) (txt : option string) (t : Task) :
  inflight w !! id = Some (DescribePending branch img txt) ->
  inflight w !! other = Some t -> id <> other ->
  let w' := step w (Settle id r) in
  isPreviewLoading (ui w') = false /\ inflight w' !! other = Some t.
Proof.
  intros Hid Hother Hne. cbv zeta. rewrite step_Settle. unfold settle. rewrite Hid.
  destruct r; simpl; (split; [reflexivity|]); now rewrite lookup_delete_ne.
Qed.

Lemma loading_flag_drops_early_witness :
  let w := run (initialWorld (Some Samples.rex))
             [PoseSourceChange text;
              PromptChange "wave"; DebouncedPromptUpdate;
              PromptChange "sit"; DebouncedPromptUpdate] in
  let w' := step w (Settle 1 (Fulfilled "A person sitting.")) in
  isPreviewLoading (ui w') = false /\
  inflight w' !! 0 = Some (DescribePending text None (Some "wave")).
Proof.
  apply (loading_flag_drops_early
           (run (initialWorld (Some Samples.rex))
              [PoseSourceChange text;
               PromptChange "wave"; DebouncedPromptUpdate;
               PromptChange "sit"; DebouncedPromptUpdate])
           1 0 (Fulfilled "A person sitting.") text None (Some "sit")).
  - vm_compute. reflexivity.
  - vm_compute. reflexivity.
  - discriminate.
Defined.

End NormalizerMore.

(** ** What a session keeps *)

Section SessionInvariants.

Lemma accepted_getPoseDescription (w : World) :
  describeCallsAccepted w -> describeCallsAccepted (getPoseDescription w).
Proof.
  unfold describeCallsAccepted, getPoseDescription. intros Hw.
  destruct (poseSourceMode (ui w)) as [m|]; [|exact Hw].
  destruct (bool_decide (m = text) && truthy (trim (debouncedPrompt (ui w)))) eqn:E.
  - simpl. constructor; [|exact Hw]. simpl.
    apply andb_prop in E as [_ E%trim_truthy]. rewrite E. eauto.
  - destruct m, (debouncedPoseImage (ui w)); exact Hw.
Qed.

Lemma accepted_settle (id : nat) (r : settled string) (w : World) :
  describeCallsAccepted w -> describeCallsAccepted (settle id r w).
Proof.
  unfold describeCallsAccepted, settle. intros Hw.
  destruct (inflight w !! id) as [[img | branch img txt]|]; [destruct r | destruct r |];
    try exact Hw.
  simpl. constructor; [|exact Hw]. simpl. eauto.
Qed.

Lemma accepted_step (w : World) (e : Event) :
  describeCallsAccepted w -> describeCallsAccepted (step w e).
Proof.
  intros Hw. unfold step, rerender.
  assert (describeCallsAccepted
            match e with
            | BaseImageUpload c f r => w |> withUi (handleBaseImageUpload c f r)
            | DeleteBaseImage c => w |> withUi (handleDeleteBaseImage c)
            | PoseSourceChange m => w |> withUi (handlePoseSourceChange m)
            | PromptChange v => w |> withUi (setPrompt v)
            | PoseImageUpload f url => w |> withUi (handlePoseImageUpload f url)
            | DescriptionChange v => w |> withUi (setPoseDescription v)
            | TryNewPose => w |> withUi handleTryNewPose
            | DebouncedPromptUpdate => w |> withUi debouncePrompt
            | DebouncedPoseImageUpdate => w |> withUi debouncePoseImage
            | Settle id r => w |> settle id r
            end) as Hhandled
    by (destruct e; try exact Hw; now apply accepted_settle).
  destruct (decide _); [exact Hhandled | now apply accepted_getPoseDescription].
Qed.

(** X16: in every session, whatever the events and their order, each call
    of the describe operation is made with an image, or with a text that is
    not empty: the component never runs into the missing-input error of the
    operation. *)
Theorem describe_never_called_empty (stored : option StoredBaseImage) (es : list Event) :
  describeCallsAccepted (run (initialWorld stored) es).
Proof.
  unfold run.
  assert (describeCallsAccepted (initialWorld stored)) as Hinit by constructor.
  revert Hinit. generalize (initialWorld stored).
  induction es as [|e es IH]; intros w Hw; [exact Hw|].
  simpl. apply IH. now apply accepted_step.
Qed.

(** X17: choosing a pose-source mode empties the pose source, the
    description and the error and hides the editor, whatever the effect
    then does; the identity and an image generated before stay in place. *)
Theorem mode_change_resets_source (w : World) (m : Mode) :
  let w' := step w (PoseSourceChange m) in
  poseSourceMode (ui w') = Some m /\
  poseImage (ui w') = None /\ prompt (ui w') = "" /\
  poseDescription (ui w') = "" /\ showDescriptionEditor (ui w') = false /\
  error (ui w') = None /\
  baseImage (ui w') = baseImage (ui w) /\
  generatedImage (ui w') = generatedImage (ui w).
Proof.
  cbv zeta. unfold step, rerender.
  destruct (decide _); [repeat split|].
  unfold getPoseDescription. simpl.
  destruct (bool_decide (m = text) && truthy (trim (debouncedPrompt (ui w))));
    [repeat split|].
  destruct m, (debouncedPoseImage (ui w)); repeat split.
Qed.

(** X18: uploading a base image changes at most the identity and the
    error: a declined replacement changes nothing, a converted file becomes
    the identity with the type of the file, a failed conversion keeps the
    old identity and shows an error; the pose source, the description and
    an image generated from the old identity stay in place, and no
    Describe call is made. *)
Theorem base_upload_keeps_workflow (w : World) (confirmed : bool) (f : File)
    (encoded : settled string) :
  let w' := step w (BaseImageUpload confirmed f encoded) in
  (poseSourceMode (ui w') = poseSourceMode (ui w) /\
   poseImage (ui w') = poseImage (ui w) /\ prompt (ui w') = prompt (ui w) /\
   poseDescription (ui w') = poseDescription (ui w) /\
   generatedImage (ui w') = generatedImage (ui w) /\
   describeCalls w' = describeCalls w) /\
  (baseImage (ui w) <> None -> confirmed = false -> w' = w) /\
  (baseImage (ui w) = None \/ confirmed = true ->
   forall base64, encoded = Fulfilled base64 ->
     baseImage (ui w') = Some (mkImagePayload base64 (type f)) /\
     error (ui w') = error (ui w)) /\
  (baseImage (ui w) = None \/ confirmed = true ->
   forall err, encoded = Rejected err ->
     baseImage (ui w') = baseImage (ui w) /\
     error (ui w') = Some "Failed to process base character image.").
Proof.
  cbv zeta. unfold step. rewrite rerender_same_deps.
  2:{ unfold withUi, handleBaseImageUpload. simpl.
      destruct (bool_decide (baseImage (ui w) <> None) && negb confirmed);
        [reflexivity|]. now destruct encoded. }
  unfold withUi, handleBaseImageUpload. simpl.
  split; [|split; [|split]].
  - destruct (bool_decide (baseImage (ui w) <> None) && negb confirmed);
      [repeat split|]. destruct encoded; repeat split.
  - intros Hbase ->. rewrite bool_decide_eq_true_2 by assumption. simpl.
    now destruct w.
  - intros Hgo base64 ->.
    assert (bool_decide (baseImage (ui w) <> None) && negb confirmed = false) as ->.
    { destruct Hgo as [Hnone | ->]; [|apply andb_false_r].
      rewrite bool_decide_eq_false_2; [reflexivity|]. intros H. now apply H. }
    repeat split.
  - intros Hgo err ->.
    assert (bool_decide (baseImage (ui w) <> None) && negb confirmed = false) as ->.
    { destruct Hgo as [Hnone | ->]; [|apply andb_false_r].
      rewrite bool_decide_eq_false_2; [reflexivity|]. intros H. now apply H. }
    repeat split.
Qed.

Lemma base_upload_keeps_workflow_witness :
  let w := Samples.describedSession in
  step w (BaseImageUpload false Samples.posePhoto (Fulfilled "bmV3")) = w /\
  baseImage (ui (step w (BaseImageUpload true Samples.posePhoto (Fulfilled "bmV3"))))
  = Some (mkImagePayload "bmV3" "image/jpeg").
Proof.
  cbv zeta. split.
  - apply (base_upload_keeps_workflow Samples.describedSession false
             Samples.posePhoto (Fulfilled "bmV3")).
    + vm_compute. discriminate.
    + reflexivity.
  - refine (proj1 (proj1 (proj2 (proj2 (base_upload_keeps_workflow
              Samples.describedSession true Samples.posePhoto (Fulfilled "bmV3"))))
              (or_intror eq_refl) "bmV3" eq_refl)).
Defined.

Lemma step_poseImage (w : World) (e : Event) :
  poseImage (ui (step w e))
  = match e with
    | PoseImageUpload f url => Some (mkImageFile f url)
    | PoseSourceChange _ | TryNewPose | DeleteBaseImage true => None
    | _ => poseImage (ui w)
    end.
Proof.
  unfold step. rewrite (proj1 (rerender_keeps_form _ _)).
  destruct e as [c f r | [|] | | | | | | | | id r]; try reflexivity.
  - unfold withUi, handleBaseImageUpload. simpl.
    destruct (bool_decide (baseImage (ui w) <> None) && negb c);
      [reflexivity | now destruct r].
  - apply settle_keeps_form.
Qed.

(** X19: a page that holds no object URL but the preview of the current
    pose image stays so after every event, provided the URL the browser
    makes for an upload is new and not empty: the preview that an upload, a
    mode change, "try new pose" or a deletion supersedes is revoked, and
    removing the component revokes the last one. *)
Theorem previews_stay_tracked (p : Page) (e : Event) :
  previewsTracked p ->
  (forall f url, e = PoseImageUpload f url -> url <> "" /\ url ∉ objectURLs p) ->
  previewsTracked (stepPage p e) /\ unmount (stepPage p e) = ∅.
Proof.
  intros Htracked Hfresh.
  assert (forall q, previewsTracked q -> unmount q = ∅) as Hunmount.
  { intros q. unfold previewsTracked, unmount, revokePreview, previewUrl.
    destruct (poseImage (ui (world q))) as [img|]; [|auto].
    intros [Hurl ->]. apply truthy_true_iff in Hurl. rewrite Hurl. set_solver. }
  assert (previewsTracked (stepPage p e)) as Hnext; [|split; [exact Hnext | auto]].
  unfold previewsTracked, stepPage in *. simpl.
  rewrite step_poseImage.
  destruct (poseImage (ui (world p))) as [old|] eqn:Hold.
  - destruct Htracked as [Hurl Hlive].
    assert (revokePreview (ui (world p)) = fun urls => urls ∖ {[preview old]}) as Hrevoke.
    { unfold revokePreview, previewUrl. rewrite Hold.
      apply truthy_true_iff in Hurl. now rewrite Hurl. }
    destruct e as [c f r | [|] | | | f url | | | | | id r];
      try (rewrite decide_True by reflexivity; now split);
      try (rewrite decide_False by discriminate; rewrite Hrevoke, Hlive; set_solver).
    destruct (Hfresh f url eq_refl) as [Hnonempty Hnew].
    rewrite decide_False, Hrevoke, Hlive.
    + split; [exact Hnonempty|]. rewrite Hlive in Hnew. set_solver.
    + intros [= ->]. rewrite Hlive in Hnew. simpl in Hnew. set_solver.
  - destruct e as [c f r | [|] | | | f url | | | | | id r];
      try (rewrite decide_True by reflexivity; exact Htracked).
    destruct (Hfresh f url eq_refl) as [Hnonempty _].
    rewrite decide_False by discriminate.
    unfold revokePreview, previewUrl. rewrite Hold, Htracked.
    split; [exact Hnonempty | set_solver].
Qed.

Lemma previews_stay_tracked_witness :
  previewsTracked
    (stepPage Samples.previewPage (PoseImageUpload Samples.posePhoto "blob:2")) /\
  unmount (stepPage Samples.previewPage (PoseImageUpload Samples.posePhoto "blob:2")) = ∅.
Proof.
  apply (previews_stay_tracked Samples.previewPage
           (PoseImageUpload Samples.posePhoto "blob:2")).
  - split; [discriminate | reflexivity].
  - intros f url [= <- <-]. split; [discriminate|].
    assert (objectURLs Samples.previewPage = {["blob:1"]}) as ->
      by (vm_compute; reflexivity).
    intros H%elem_of_singleton. discriminate.
Defined.

End SessionInvariants.

(** ** The earlier revision *)

Section EarlierRevision.

Variable prompts : Mode -> string -> string.
Variable model : list GeminiService.Part -> settled GeminiService.Response.

(** The [try] block answers 400 or 200 only, and 200 with the first
    inline data of what the model answered. *)
Lemma generate_answers (req : Wire.Request) (answer : Wire.HttpResponse) :
  Functions.generate prompts model req = Fulfilled answer ->
  answer = Functions.errorAnswer 400 "Missing baseImage or options in request body."
  \/ exists parts response found bytes,
       model parts = Fulfilled response /\
       GeminiService.candidateParts response = Some found /\
       GeminiService.firstInlineData found = Some bytes /\
       answer = Functions.imageAnswer bytes.
Proof.
  unfold Functions.generate.
  destruct (Wire.body req) as [request|]; [simpl | discriminate].
  destruct (Wire.baseImage request) as [base|]; [|intros [= <-]; now left].
  destruct (Wire.options request) as [opts|]; [|intros [= <-]; now left].
  match goal with |- context [mbind _ ?p] => destruct p as [parts|] end;
    [simpl | discriminate].
  destruct (model parts) as [response|] eqn:Hmodel; [simpl | discriminate].
  destruct (Functions.poseDetectionText _); [discriminate|].
  destruct (GeminiService.candidateParts response) as [found|] eqn:Hfound;
    [|discriminate].
  destruct (GeminiService.firstInlineData found) as [bytes|] eqn:Hbytes;
    [|discriminate].
  intros [= <-]. right. exists parts, response, found, bytes. auto.
Qed.

(** X20: to a request the CORS middleware passed on, the function
    answers with status 200 and image data, or with status 400, 405 or 500
    and an error message, never anything else; a 200 carries the first
    inline data of the model's answer, and a request that is not a POST is
    answered 405 whatever the model would do. *)
Theorem function_answers (req : Wire.Request) :
  let answer := Functions.generatePose prompts model req in
  ((exists parts response found bytes,
      model parts = Fulfilled response /\
      GeminiService.candidateParts response = Some found /\
      GeminiService.firstInlineData found = Some bytes /\
      answer = Functions.imageAnswer bytes)
   \/ (exists code message,
         (code = 400 \/ code = 405 \/ code = 500) /\
         answer = Functions.errorAnswer code message)) /\
  (Wire.method req <> "POST" ->
   answer = Functions.errorAnswer 405 "Method Not Allowed").
Proof.
  cbv zeta. unfold Functions.generatePose. split.
  - destruct (negb (Wire.method req =? "POST")%string);
      [right; exists 405, "Method Not Allowed"; auto|].
    destruct (Functions.generate prompts model req) as [answer|[message|]] eqn:Hgen.
    + apply generate_answers in Hgen as [-> | Himage]; [|now left].
      right. exists 400, "Missing baseImage or options in request body.". auto.
    + right. exists 500, message. auto.
    + right. exists 500, "An internal server error occurred.". auto.
  - intros Hmethod%String.eqb_neq. now rewrite Hmethod.
Qed.


(** X22: in that revision, whenever a validation message is shown the
    generate button is disabled, and whenever the button is disabled with an
    identity stored and no generation running, a validation message says
    what is missing. *)
Theorem validation_explains_disabled (s : AppV1.State) :
  (AppV1.validationMessage s <> "" -> AppV1.isGenerateDisabled s = true) /\
  (AppV1.isGenerateDisabled s = true ->
   AppV1.isLoading s = false -> AppV1.baseImage s <> None ->
   AppV1.validationMessage s <> "").
Proof.
  unfold AppV1.validationMessage, AppV1.isGenerateDisabled, AppV1.modeIs.
  destruct s as [base pose prompt mode generated loading err]. simpl.
  split.
  - destruct base, mode as [[|]|], pose, (truthy (trim prompt)), loading;
      simpl; intros H; reflexivity || now destruct H.
  - intros Hdisabled -> Hbase.
    destruct base; [|now destruct Hbase].
    destruct mode as [[|]|], pose, (truthy (trim prompt));
      simpl in *; discriminate.
Qed.

(** X23: in that revision a click on the enabled button makes exactly one
    request, for the stored identity; in image mode it carries the pose
    image and in text mode a prompt that is not blank, so the function does
    not answer it with the missing-image error. *)
Theorem enabled_button_sends_valid_request
    (convert : File -> settled string)
    (generatePose : ImagePayload -> Wire.GenerateOptions -> settled (option string))
    (s : AppV1.State) :
  AppV1.isGenerateDisabled s = false ->
  (forall f, exists base64, convert f = Fulfilled base64) ->
  exists base opts s',
    AppV1.handleGenerate convert generatePose s = (s', [(base, opts)]) /\
    AppV1.baseImage s = Some base /\
    AppV1.poseSourceMode s = Some (Wire.mode opts) /\
    Wire.userPrompt opts = AppV1.prompt s /\
    (Wire.mode opts = image -> Wire.poseImage opts <> None) /\
    (Wire.mode opts = text -> blank (Wire.userPrompt opts) = false) /\
    AppV1.isLoading s' = false.
Proof.
  unfold AppV1.isGenerateDisabled, AppV1.modeIs, AppV1.handleGenerate.
  destruct s as [base pose prompt mode generated loading err]. simpl.
  intros Henabled Hconvert.
  destruct loading; [discriminate|].
  destruct base as [base|]; [|discriminate].
  destruct mode as [[|]|]; [| |discriminate]; simpl in Henabled.
  - destruct (truthy (trim prompt)) eqn:Hprompt; [|discriminate]. simpl.
    assert (blank prompt = false) as Hblank.
    { destruct (blank prompt) eqn:E; [|reflexivity].
      now rewrite (trim_blank _ E) in Hprompt. }
    destruct pose;
      (destruct (generatePose base _) as [result|e];
       do 3 eexists; (split; [reflexivity|]); repeat split; auto; discriminate).
  - destruct pose as [img|]; [|discriminate]. simpl.
    destruct (Hconvert (file img)) as [base64 ->]. simpl.
    destruct (generatePose base _) as [result|e];
      do 3 eexists; (split; [reflexivity|]); repeat split; auto; discriminate.
Qed.

End EarlierRevision.

Section EarlierRevisionWitnesses.

Lemma function_answers_witness :
  Functions.generatePose Samples.echo (Samples.paintingModel "")
    (Wire.mkRequest "GET" None)
  = Functions.errorAnswer 405 "Method Not Allowed".
Proof.
  apply (function_answers Samples.echo (Samples.paintingModel "")
           (Wire.mkRequest "GET" None)).
  discriminate.
Defined.


Lemma enabled_button_sends_valid_request_witness :
  exists base opts s',
    AppV1.handleGenerate (Samples.reads 0)
      (BackendClient.throughFunction Samples.echo (Samples.paintingModel ""))
      (AppV1.mkState (Some Samples.rex)
         (Some (mkImageFile Samples.posePhoto "blob:1")) "" (Some image) None false None)
    = (s', [(base, opts)]) /\
    AppV1.baseImage
      (AppV1.mkState (Some Samples.rex)
         (Some (mkImageFile Samples.posePhoto "blob:1")) "" (Some image) None false None)
    = Some base /\
    AppV1.poseSourceMode
      (AppV1.mkState (Some Samples.rex)
         (Some (mkImageFile Samples.posePhoto "blob:1")) "" (Some image) None false None)
    = Some (Wire.mode opts) /\
    Wire.userPrompt opts
    = AppV1.prompt
        (AppV1.mkState (Some Samples.rex)
           (Some (mkImageFile Samples.posePhoto "blob:1")) "" (Some image) None false None) /\
    (Wire.mode opts = image -> Wire.poseImage opts <> None) /\
    (Wire.mode opts = text -> blank (Wire.userPrompt opts) = false) /\
    AppV1.isLoading s' = false.
Proof.
  apply (enabled_button_sends_valid_request (Samples.reads 0)
           (BackendClient.throughFunction Samples.echo (Samples.paintingModel ""))).
  - reflexivity.
  - intros f. eexists. reflexivity.
Defined.

Lemma validation_explains_disabled_witness :
  AppV1.validationMessage
    (AppV1.mkState (Some Samples.rex) None "   " (Some text) None false None) <> "".
Proof.
  apply (validation_explains_disabled
           (AppV1.mkState (Some Samples.rex) None "   " (Some text) None false None)).
  - reflexivity.
  - reflexivity.
  - discriminate.
Defined.

End EarlierRevisionWitnesses.

Section NormalizerWitnesses.

Lemma describe_failure_keeps_description_witness :
  let w' := step Samples.supersededSession (Settle 0 (Rejected (ErrorObject "quota"))) in
  poseDescription (ui w') = poseDescription (ui Samples.supersededSession) /\
  showDescriptionEditor (ui w') = false /\
  error (ui w') = Some (describeErrorPrefix text +:+ message_of (ErrorObject "quota")).
Proof.
  apply (describe_failure_keeps_description Samples.supersededSession 0 text None
           (Some "wave") (ErrorObject "quota")).
  vm_compute. reflexivity.
Defined.

End NormalizerWitnesses.

(** ** Blank text *)

Section BlankText.

Lemma truthy_trim_not_blank (t : string) : truthy (trim t) = true -> blank t = false.
Proof.
  intros Ht. destruct (blank t) eqn:E; [|reflexivity].
  now rewrite (trim_blank _ E) in Ht.
Qed.

Lemma notBlank_getPoseDescription (w : World) :
  Forall textCallNotBlank (describeCalls w) ->
  Forall textCallNotBlank (describeCalls (getPoseDescription w)).
Proof.
  unfold getPoseDescription. intros Hw.
  destruct (poseSourceMode (ui w)) as [m|]; [|exact Hw].
  destruct (bool_decide (m = text) && truthy (trim (debouncedPrompt (ui w)))) eqn:E.
  - simpl. constructor; [|exact Hw].
    intros t [= <-]. apply andb_prop in E as [_ E]. now apply truthy_trim_not_blank.
  - destruct m, (debouncedPoseImage (ui w)); exact Hw.
Qed.

Lemma notBlank_settle (id : nat) (r : settled string) (w : World) :
  Forall textCallNotBlank (describeCalls w) ->
  Forall textCallNotBlank (describeCalls (settle id r w)).
Proof.
  unfold settle. intros Hw.
  destruct (inflight w !! id) as [[img | branch img txt]|]; [destruct r | destruct r |];
    try exact Hw.
  simpl. constructor; [|exact Hw]. intros t. discriminate.
Qed.

Lemma notBlank_step (w : World) (e : Event) :
  Forall textCallNotBlank (describeCalls w) ->
  Forall textCallNotBlank (describeCalls (step w e)).
Proof.
  intros Hw. unfold step, rerender.
  destruct (decide _).
  - destruct e; try exact Hw. now apply notBlank_settle.
  - apply notBlank_getPoseDescription.
    destruct e; try exact Hw. now apply notBlank_settle.
Qed.

Lemma notBlank_run (es : list Event) :
  forall w, Forall textCallNotBlank (describeCalls w) ->
            Forall textCallNotBlank (describeCalls (run w es)).
Proof.
  unfold run. induction es as [|e es IH]; intros w Hw; [exact Hw|].
  simpl. apply IH. now apply notBlank_step.
Qed.

(** C7, as stated, fails, for the call and for the description.  A text
    source whose content was replaced by three spaces gets the description
    of the text typed before, when the answer to the call made for that
    text arrives; and choosing the text mode, which empties the prompt,
    sends the text the debounced copy still holds to Describe. *)
Lemma blank_text_source_gets_description :
  (let w := Samples.clearedWhileDescribing in
   poseSourceMode (ui w) = Some text /\
   prompt (ui w) = "   " /\ debouncedPrompt (ui w) = "   " /\
   blank (prompt (ui w)) = true /\
   poseDescription (ui w) = "" /\
   let w' := step w (Settle 0 (Fulfilled "A person waving.")) in
   blank (prompt (ui w')) = true /\ blank (debouncedPrompt (ui w')) = true /\
   poseDescription (ui w') = "A person waving." /\
   showDescriptionEditor (ui w') = true) /\
  (let v := step Samples.switchedToImage (PoseSourceChange text) in
   poseSourceMode (ui v) = Some text /\
   prompt (ui v) = "" /\ blank (prompt (ui v)) = true /\
   describeCalls v = (None, Some "wave") :: describeCalls Samples.switchedToImage).
Proof. vm_compute. repeat split. Qed.

(** C7 (amended): no blank text (empty, or white space only) is ever sent
    to Describe: in every session each text a Describe call is made with is
    not blank; and when the effect runs in text mode on a blank debounced
    text, as after the debounce update of a blank prompt, it makes no
    Describe call, starts no promise and leaves the description empty.  The
    effect reads the debounced copy of the text, and calls in flight are
    not cancelled. *)
Theorem blank_text_not_described :
  (forall (stored : option StoredBaseImage) (es : list Event),
     Forall textCallNotBlank (describeCalls (run (initialWorld stored) es))) /\
  (forall w : World,
     poseSourceMode (ui w) = Some text ->
     blank (debouncedPrompt (ui w)) = true ->
     let w' := getPoseDescription w in
     describeCalls w' = describeCalls w /\ inflight w' = inflight w /\
     nextTask w' = nextTask w /\
     poseDescription (ui w') = "" /\ showDescriptionEditor (ui w') = false) /\
  (forall w : World,
     poseSourceMode (ui w) = Some text ->
     blank (prompt (ui w)) = true ->
     let w' := step w DebouncedPromptUpdate in
     describeCalls w' = describeCalls w /\ inflight w' = inflight w /\
     nextTask w' = nextTask w).
Proof.
  split; [|split].
  - intros stored es. apply notBlank_run. constructor.
  - intros w Hmode Hblank. cbv zeta.
    rewrite getPoseDescription_blank_text by assumption. repeat split.
  - intros w Hmode Hblank. cbv zeta. unfold step, rerender.
    destruct (decide _) as [_|_]; [repeat split|].
    rewrite getPoseDescription_blank_text by assumption. repeat split.
Qed.

Lemma blank_text_not_described_witness :
  let w := step Samples.describedSession (PromptChange "   ") in
  let w' := step w DebouncedPromptUpdate in
  describeCalls w' = describeCalls w /\ inflight w' = inflight w /\
  nextTask w' = nextTask w.
Proof.
  destruct blank_text_not_described as (_ & _ & Hupdate).
  apply (Hupdate (step Samples.describedSession (PromptChange "   ")));
    vm_compute; reflexivity.
Defined.

End BlankText.
